(** * LS-8 emulator core ([ls8/cpu.py]): a shallow embedding and its properties

    The Python class [CPU] is embedded by explicit state passing.  Python
    integers are unbounded, so every cell is a [Z]; the two arrays [ram] and
    [reg] are lists accessed with Python's subscript rule (a negative index
    counts from the end, anything outside [-len, len) raises [IndexError]).
    A call either returns, raises an exception, or leaves through
    [sys.exit]; the three cases are the constructors of [outcome].  Standard
    output is the list of [event]s in the state, one per [print] call.

    The one place where a small program meets the limits of the machine
    that runs the interpreter is the left shift (a count such as [2**64]
    ends in [MemoryError]); what the host can shift is a parameter of the
    development, see [Host].

    Left out: the text handling of [load] (it is embedded on the integers
    the lines parse to) and the layout of the printed lines. *)

From Stdlib Require Import ZArith Ascii String List Lia Bool.
From stdpp Require Import base numbers list strings gmap.

Local Open Scope Z_scope.

(** ** Binary literals

    The source spells op-codes as [0b...] literals; [bin] reads the same
    digits so that each constant can be compared with its source line. *)

Fixpoint bin_digits (acc : Z) (s : string) : Z :=
  match s with
  | EmptyString => acc
  | String c rest =>
      bin_digits (2 * acc + (if Ascii.eqb c "1"%char then 1 else 0)) rest
  end.

Definition bin (s : string) : Z := bin_digits 0 s.

(** ** Module-level constants *)

(* Registers *)
Definition R0 : Z := 0x00.
Definition R1 : Z := 0x01.
Definition R2 : Z := 0x02.
Definition R3 : Z := 0x03.
Definition R4 : Z := 0x04.
Definition R5 : Z := 0x05.
Definition R6 : Z := 0x06.
Definition R7 : Z := 0x07.
Definition PROGRAM_END : Z := 0x04.
Definition SP : Z := 0x07.

(* OP-Codes: ALU *)
Definition ADD : Z := Eval cbv in bin "10100000".
Definition SUB : Z := Eval cbv in bin "10100001".
Definition MUL : Z := Eval cbv in bin "10100010".
Definition DIV : Z := Eval cbv in bin "10100011".
Definition MOD : Z := Eval cbv in bin "10100100".
Definition INC : Z := Eval cbv in bin "01100101".
Definition DEC : Z := Eval cbv in bin "01100110".
Definition CMP : Z := Eval cbv in bin "10100111".
Definition AND : Z := Eval cbv in bin "10101000".
Definition NOT : Z := Eval cbv in bin "01101001".
Definition OR : Z := Eval cbv in bin "10101010".
Definition XOR : Z := Eval cbv in bin "10101011".
Definition SHL : Z := Eval cbv in bin "10101100".
Definition SHR : Z := Eval cbv in bin "10101101".

(* OP-Codes: PC mutators *)
Definition CALL : Z := Eval cbv in bin "01010000".
Definition RET : Z := Eval cbv in bin "00010001".
Definition INT : Z := Eval cbv in bin "01010010".
Definition IRET : Z := Eval cbv in bin "00010011".
Definition JMP : Z := Eval cbv in bin "01010100".
Definition JEQ : Z := Eval cbv in bin "01010101".
Definition JNE : Z := Eval cbv in bin "01010110".
Definition JGT : Z := Eval cbv in bin "01010111".
Definition JLT : Z := Eval cbv in bin "01011000".
Definition JLE : Z := Eval cbv in bin "01011001".
Definition JGE : Z := Eval cbv in bin "01011010".

(* OP-Codes: other *)
Definition NOP : Z := Eval cbv in bin "00000000".
Definition HLT : Z := Eval cbv in bin "00000001".
Definition LDI : Z := Eval cbv in bin "10000010".
Definition LD : Z := Eval cbv in bin "10000011".
Definition ST : Z := Eval cbv in bin "10000100".
Definition PUSH : Z := Eval cbv in bin "01000101".
Definition POP : Z := Eval cbv in bin "01000110".
Definition PRN : Z := Eval cbv in bin "01000111".
Definition PRA : Z := Eval cbv in bin "01001000".

(* Bit tools *)
Definition ONE_BYTE : Z := 0xff.
Definition ONE_BIT : Z := 0x01.
Definition OP_SETS_INST : Z := 0x04.
Definition NUM_OPERANDS : Z := 0x06.
Definition CMP_CLEAR : Z := Eval cbv in bin "11111000".
Definition EQ : Z := 0x01.
Definition GT : Z := 0x02.
Definition LT : Z := 0x04.

(* Stack *)
Definition STACK_HEAD : Z := 0xf4.

(* Exit codes *)
Definition DONE : Z := 0.
Definition UNKNOWN_INSTRUCTION : Z := 1.
Definition IO_ERROR : Z := 2.
Definition STACK_OVERFLOW : Z := 3.

(** ** Machine state and outcomes *)

(** One value per [print] call site; each carries exactly the data its
    format string interpolates. *)
Inductive event : Type :=
  | PrintRunning                                   (* "Running..." *)
  | PrintValue (v : Z)                             (* print(self.reg[..]) *)
  | PrintStackOverflow                             (* "Stack Overflow!!" *)
  | PrintTrace (p b0 b1 b2 : Z) (regs : list Z)    (* trace() line *)
  | PrintUnknown (ir : Z)                          (* "Unknown Instruction .." *)
  | PrintCannotOpen                                (* "Cannot open file .." *)
  | PrintShuttingDown.                             (* "Shutting Down..." *)

Record cpu : Type := mkCPU {
  ram : list Z;
  reg : list Z;
  pc : Z;
  fl : Z;
  is_running : bool;
  stdout : list event
}.

Inductive exn : Type :=
  | IndexError          (* list subscript out of range *)
  | ValueError          (* negative shift count *)
  | MemoryError         (* the result of a left shift cannot be allocated *)
  | OverflowError       (* "too many digits in integer" *)
  | UnsupportedALU.     (* Exception("Unsupported ALU operation") *)

Inductive outcome (A : Type) : Type :=
  | Ok (a : A)
  | Raise (e : exn)
  | SysExit (code : Z) (final : cpu).

Arguments Ok {A} a.
Arguments Raise {A} e.
Arguments SysExit {A} code final.

Definition bind {A B : Type} (m : outcome A) (k : A -> outcome B) : outcome B :=
  match m with
  | Ok a => k a
  | Raise e => Raise e
  | SysExit c s => SysExit c s
  end.

Declare Scope py_scope.
Delimit Scope py_scope with py.
Notation "'let*' x := m 'in' k" := (bind m (fun x => k))
  (at level 10, x name, m at level 100, k at level 200) : py_scope.
Local Open Scope py_scope.

(** ** Python list subscripts *)

Definition py_index (len i : Z) : option nat :=
  if (0 <=? i) && (i <? len) then Some (Z.to_nat i)
  else if (- len <=? i) && (i <? 0) then Some (Z.to_nat (len + i))
  else None.

Definition getitem (l : list Z) (i : Z) : outcome Z :=
  match py_index (Z.of_nat (length l)) i with
  | Some n => match l !! n with Some v => Ok v | None => Raise IndexError end
  | None => Raise IndexError
  end.

Definition setitem (l : list Z) (i v : Z) : outcome (list Z) :=
  match py_index (Z.of_nat (length l)) i with
  | Some n => Ok (<[n := v]> l)
  | None => Raise IndexError
  end.

(** ** Field updates *)

Definition set_ram (s : cpu) (m : list Z) : cpu :=
  mkCPU m (reg s) (pc s) (fl s) (is_running s) (stdout s).
Definition set_reg (s : cpu) (r : list Z) : cpu :=
  mkCPU (ram s) r (pc s) (fl s) (is_running s) (stdout s).
Definition set_pc (s : cpu) (p : Z) : cpu :=
  mkCPU (ram s) (reg s) p (fl s) (is_running s) (stdout s).
Definition set_fl (s : cpu) (f : Z) : cpu :=
  mkCPU (ram s) (reg s) (pc s) f (is_running s) (stdout s).
Definition set_running (s : cpu) (b : bool) : cpu :=
  mkCPU (ram s) (reg s) (pc s) (fl s) b (stdout s).
Definition print (e : event) (s : cpu) : cpu :=
  mkCPU (ram s) (reg s) (pc s) (fl s) (is_running s) (stdout s ++ [e]).

(** ** [CPU.__init__] (state part) *)

Definition init : cpu :=
  let ram0 := replicate 256 0 in
  let reg0 := replicate 8 0 in
  let reg1 := <[Z.to_nat SP := STACK_HEAD]> reg0 in
  mkCPU ram0 reg1 0x00 0x00 false [].

(** ** Memory access, shutdown, trace *)

Definition ram_read (mar : Z) (s : cpu) : outcome Z := getitem (ram s) mar.

Definition ram_write (mar mdr : Z) (s : cpu) : outcome cpu :=
  let* m := setitem (ram s) mar mdr in Ok (set_ram s m).

Definition _shutdown {A : Type} (exit_code : Z) (s : cpu) : outcome A :=
  SysExit exit_code (print PrintShuttingDown s).

Fixpoint read_regs (l : list Z) (idxs : list Z) : outcome (list Z) :=
  match idxs with
  | [] => Ok []
  | i :: rest =>
      let* v := getitem l i in
      let* vs := read_regs l rest in
      Ok (v :: vs)
  end.

Definition trace (s : cpu) : outcome cpu :=
  let* b0 := ram_read (pc s) s in
  let* b1 := ram_read (pc s + 1) s in
  let* b2 := ram_read (pc s + 2) s in
  let* regs := read_regs (reg s) (seqZ 0 8) in
  Ok (print (PrintTrace (pc s) b0 b1 b2 regs) s).

(** ** Instruction handlers

    Every handler is called as [handler(op_a, op_b)]; the star-argument
    tuple [operands] is the pair of its two arguments. *)

(** Python truth value of an integer. *)
Definition truthy (z : Z) : bool := negb (z =? 0).

Definition _ldi (op_a op_b : Z) (s : cpu) : outcome cpu :=
  let* r := setitem (reg s) op_a op_b in
  Ok (set_reg s r).

Definition _prn (op_a op_b : Z) (s : cpu) : outcome cpu :=
  let* v := getitem (reg s) op_a in
  Ok (print (PrintValue v) s).

Definition _hlt (op_a op_b : Z) (s : cpu) : outcome cpu :=
  Ok (set_running s false).

(** [self.reg[reg_a] = f(self.reg[reg_a], self.reg[reg_b])], the shape of
    every two-register branch of [alu]. *)
Definition reg_binop (f : Z -> Z -> outcome Z) (reg_a reg_b : Z) (s : cpu)
  : outcome cpu :=
  let* x := getitem (reg s) reg_a in
  let* y := getitem (reg s) reg_b in
  let* v := f x y in
  let* r := setitem (reg s) reg_a v in
  Ok (set_reg s r).

(** ** The interpreter's host

    Python integers have no fixed width, but the machine that runs the
    interpreter is finite: [x << y] builds a number of about [y] bits, and
    for a count such as [2**64] the interpreter gives up, with
    [MemoryError] when the allocation fails or with [OverflowError] ("too
    many digits in integer") when the size cannot even be asked for.  Which
    shifts a host carries out is no property of the program, so it is a
    parameter of everything from here on: [shl_fault x y] is [None] when
    the host builds [x << y] and names the failure when it does not. *)

Inductive shift_fault : Type :=
  | OutOfMemory
  | TooManyDigits.

Definition fault_exn (f : shift_fault) : exn :=
  match f with
  | OutOfMemory => MemoryError
  | TooManyDigits => OverflowError
  end.

Class Host : Type := { shl_fault : Z -> Z -> option shift_fault }.

Section Machine.
Context {host : Host}.

(** Python's [<<] and [>>] reject a negative count.  Zero shifted left is
    zero whatever the count; any other left shift is the product with the
    power of two when the host can build it.  A right shift never grows its
    operand and returns for every count. *)
Definition py_shl (x y : Z) : outcome Z :=
  if y <? 0 then Raise ValueError
  else if x =? 0 then Ok 0
  else match shl_fault x y with
       | Some f => Raise (fault_exn f)
       | None => Ok (Z.shiftl x y)
       end.
Definition py_shr (x y : Z) : outcome Z :=
  if y <? 0 then Raise ValueError else Ok (Z.shiftr x y).

(** The [if]/[elif] chain of [alu]. *)
Definition alu_dispatch (op : string) (reg_a reg_b : Z) (s : cpu) : outcome cpu :=
  if String.eqb op "ADD" then
    reg_binop (fun x y => Ok (x + y)) reg_a reg_b s
  else if String.eqb op "MUL" then
    reg_binop (fun x y => Ok (x * y)) reg_a reg_b s
  else if String.eqb op "CMP" then
    (* clear the CMP flag bits *)
    let s0 := set_fl s (Z.land (fl s) CMP_CLEAR) in
    let* x := getitem (reg s0) reg_a in
    let* y := getitem (reg s0) reg_b in
    if x <? y then Ok (set_fl s0 (Z.lor (fl s0) LT))
    else
      let* x' := getitem (reg s0) reg_a in
      let* y' := getitem (reg s0) reg_b in
      if x' >? y' then Ok (set_fl s0 (Z.lor (fl s0) GT))
      else Ok (set_fl s0 (Z.lor (fl s0) EQ))
  else if String.eqb op "AND" then
    reg_binop (fun x y => Ok (Z.land x y)) reg_a reg_b s
  else if String.eqb op "OR" then
    reg_binop (fun x y => Ok (Z.lor x y)) reg_a reg_b s
  else if String.eqb op "XOR" then
    reg_binop (fun x y => Ok (Z.lxor x y)) reg_a reg_b s
  else if String.eqb op "NOT" then
    let* x := getitem (reg s) reg_a in
    let* r := setitem (reg s) reg_a (Z.lnot x) in
    Ok (set_reg s r)
  else if String.eqb op "SHL" then
    reg_binop py_shl reg_a reg_b s
  else if String.eqb op "SHR" then
    reg_binop py_shr reg_a reg_b s
  else Raise UnsupportedALU.

(** [alu]: the chain above, then the clamp that follows it for every
    operation (CMP included). *)
Definition alu (op : string) (reg_a reg_b : Z) (s : cpu) : outcome cpu :=
  let* s1 := alu_dispatch op reg_a reg_b s in
  (* Clamp results to one byte *)
  let* x := getitem (reg s1) reg_a in
  let* r := setitem (reg s1) reg_a (Z.land x ONE_BYTE) in
  Ok (set_reg s1 r).

Definition _add (op_a op_b : Z) : cpu -> outcome cpu := alu "ADD" op_a op_b.
Definition _mul (op_a op_b : Z) : cpu -> outcome cpu := alu "MUL" op_a op_b.
Definition _cmp (op_a op_b : Z) : cpu -> outcome cpu := alu "CMP" op_a op_b.
Definition _and (op_a op_b : Z) : cpu -> outcome cpu := alu "AND" op_a op_b.
Definition _or (op_a op_b : Z) : cpu -> outcome cpu := alu "OR" op_a op_b.
Definition _xor (op_a op_b : Z) : cpu -> outcome cpu := alu "XOR" op_a op_b.
Definition _not (op_a op_b : Z) : cpu -> outcome cpu := alu "NOT" op_a op_b.
Definition _shl (op_a op_b : Z) : cpu -> outcome cpu := alu "SHL" op_a op_b.
Definition _shr (op_a op_b : Z) : cpu -> outcome cpu := alu "SHR" op_a op_b.

Definition _pop (op_a op_b : Z) (s : cpu) : outcome cpu :=
  let* sp := getitem (reg s) SP in
  let* v := ram_read sp s in
  let* r := setitem (reg s) op_a v in
  let s1 := set_reg s r in
  let* sp1 := getitem (reg s1) SP in
  if sp1 <? STACK_HEAD then
    let* sp2 := getitem (reg s1) SP in
    let* r2 := setitem (reg s1) SP (sp2 + 1) in
    Ok (set_reg s1 r2)
  else Ok s1.

Definition _push (op_a op_b : Z) (s : cpu) : outcome cpu :=
  let* sp := getitem (reg s) SP in
  let* pe := getitem (reg s) PROGRAM_END in
  if sp - 1 >=? pe then
    let* r := setitem (reg s) SP (sp - 1) in
    let s1 := set_reg s r in
    let* sp1 := getitem (reg s1) SP in
    let* v := getitem (reg s1) op_a in
    ram_write sp1 v s1
  else
    let s1 := print PrintStackOverflow s in
    let* s2 := trace s1 in
    _shutdown STACK_OVERFLOW s2.

Definition _jmp (op_a op_b : Z) (s : cpu) : outcome cpu :=
  let* v := getitem (reg s) op_a in
  Ok (set_pc s v).

Definition _jeq (op_a op_b : Z) (s : cpu) : outcome cpu :=
  if truthy (Z.land (fl s) EQ) then
    let* v := getitem (reg s) op_a in
    Ok (set_pc s v)
  else Ok (set_pc s (pc s + 2)).

Definition _jne (op_a op_b : Z) (s : cpu) : outcome cpu :=
  if negb (truthy (Z.land (fl s) EQ)) then
    let* v := getitem (reg s) op_a in
    Ok (set_pc s v)
  else Ok (set_pc s (pc s + 2)).

(** ** The dispatch table built by [__init__], in source order *)

Definition handler : Type := Z -> Z -> cpu -> outcome cpu.

Definition perform_op : gmap Z handler :=
  let d : gmap Z handler := ∅ in
  let d := <[LDI := _ldi]> d in
  let d := <[PRN := _prn]> d in
  let d := <[HLT := _hlt]> d in
  let d := <[PUSH := _push]> d in
  let d := <[POP := _pop]> d in
  let d := <[JMP := _jmp]> d in
  let d := <[JEQ := _jeq]> d in
  let d := <[JNE := _jne]> d in
  (* ALU operations *)
  let d := <[ADD := _add]> d in
  let d := <[MUL := _mul]> d in
  let d := <[CMP := _cmp]> d in
  let d := <[AND := _and]> d in
  let d := <[OR := _or]> d in
  let d := <[XOR := _xor]> d in
  let d := <[NOT := _not]> d in
  let d := <[SHL := _shl]> d in
  let d := <[SHR := _shr]> d in
  d.

(** ** [load], on the integers the file's non-empty lines parse to

    The text handling of [load] (split at the comment sign, strip, parse in
    base 2) is outside this development; [values] is the sequence of
    integers it yields.  An [IndexError] from a store beyond the last cell
    is swallowed by the bare [except] and becomes the I/O exit. *)

Fixpoint load_loop (values : list Z) (address : Z) (m : list Z)
  : list Z * option Z :=
  match values with
  | [] => (m, Some address)
  | v :: rest =>
      match setitem m address v with
      | Ok m' => load_loop rest (address + 1) m'
      | _ => (m, None)
      end
  end.

Definition load (values : list Z) (s : cpu) : outcome cpu :=
  match load_loop values 0 (ram s) with
  | (m, Some address) =>
      (* store end of program into PROGRAM_END register *)
      let* r := setitem (reg s) PROGRAM_END address in
      Ok (set_reg (set_ram s m) r)
  | (m, None) => _shutdown IO_ERROR (print PrintCannotOpen (set_ram s m))
  end.

(** ** [_to_next_instruction] and [run] *)

Definition _to_next_instruction (ir : Z) (s : cpu) : cpu :=
  let isPcAlreadySet := Z.shiftr ir OP_SETS_INST in
  let isPcAlreadySet := Z.land isPcAlreadySet ONE_BIT in
  if negb (truthy isPcAlreadySet) then
    set_pc s (pc s + (Z.shiftr ir NUM_OPERANDS + 1))
  else s.

(** The three reads at the top of the loop body. *)
Definition fetch (s : cpu) : outcome (Z * Z * Z) :=
  let* instruction_reg := ram_read (pc s) s in
  let* op_a := ram_read (pc s + 1) s in
  let* op_b := ram_read (pc s + 2) s in
  Ok (instruction_reg, op_a, op_b).

(** One pass through the body of the [while] loop. *)
Definition run_body (s : cpu) : outcome cpu :=
  let* f := fetch s in
  let '(instruction_reg, op_a, op_b) := f in
  match perform_op !! instruction_reg with
  | Some h =>
      let* s1 := trace s in
      let* s2 := h op_a op_b s1 in
      Ok (_to_next_instruction instruction_reg s2)
  | None =>
      _shutdown UNKNOWN_INSTRUCTION (print (PrintUnknown instruction_reg) s)
  end.

(** The [while self.is_running] loop followed by [self._shutdown()].  The
    process never returns from [run]: the result is a [SysExit] or a
    [Raise]; [None] means the fuel ran out before the process ended. *)
Fixpoint run_loop (fuel : nat) (s : cpu) : option (outcome cpu) :=
  match fuel with
  | O => None
  | S fuel' =>
      if is_running s then
        match run_body s with
        | Ok s' => run_loop fuel' s'
        | stop => Some stop
        end
      else Some (_shutdown DONE s)
  end.

Definition run (fuel : nat) (s : cpu) : option (outcome cpu) :=
  run_loop fuel (set_running (print PrintRunning s) true).

(** * Vocabulary of the statements *)

(** The test the jump handlers make on a flag bit: [self.fl & f]. *)
Definition flag_set (f : Z) (s : cpu) : bool := truthy (Z.land (fl s) f).

(** The flag that the comparison of [x] with [y] selects. *)
Definition cmp_flag (x y : Z) : Z :=
  if x <? y then LT else if x >? y then GT else EQ.

(** The operation tags of [alu] other than CMP. *)
Definition clamped_ops : list string :=
  ["ADD"; "MUL"; "AND"; "OR"; "XOR"; "NOT"; "SHL"; "SHR"]%string.

(** The two tags whose operation rejects a negative second operand. *)
Definition shift_ops : list string := ["SHL"; "SHR"]%string.

(** One-byte values. *)
Definition is_byte (v : Z) : Prop := 0 <= v <= 255.

(** The state a successful PUSH returns: SP decremented, then the (possibly
    just decremented) register [n] stored at the new top. *)
Definition pushed (s : cpu) (sp : Z) (m : nat) (v : Z) : cpu :=
  set_ram (set_reg s (<[7%nat := sp - 1]> (reg s))) (<[m := v]> (ram s)).

(** The state in which the process exits on a stack overflow. *)
Definition overflowed (s : cpu) (b0 b1 b2 : Z) : cpu :=
  print PrintShuttingDown
    (print (PrintTrace (pc s) b0 b1 b2 (reg s)) (print PrintStackOverflow s)).

(** Two concrete machines: one with room on the stack, one whose stack
    pointer has reached the end of a two-byte program [PUSH R0]. *)
Definition roomy : cpu :=
  set_reg init [42; 0; 0; 0; 6; 0; 0; 244].

Definition cramped : cpu :=
  set_running
    (set_reg (set_ram init (PUSH :: 0 :: replicate 254 0))
       [42; 0; 0; 0; 2; 0; 0; 2])
    true.

(** The register file a POP into slot [n] returns, from stack pointer [sp]
    and popped value [v]: the read lands in slot [n] first, and the test on
    SP that follows sees it. *)
Definition popped_sp (sp v : Z) (n : nat) : Z :=
  let sp1 := if decide (n = 7%nat) then v else sp in
  if sp1 <? STACK_HEAD then sp1 + 1 else sp1.

Definition popped (s : cpu) (sp v : Z) (n : nat) : cpu :=
  let mid := <[n := v]> (reg s) in
  let sp1 := if decide (n = 7%nat) then v else sp in
  set_reg s (if sp1 <? STACK_HEAD then <[7%nat := sp1 + 1]> mid else mid).

(** Sequences of stack instructions, run handler after handler. *)
Inductive stack_instr : Type :=
  | IPush (op_a op_b : Z)
  | IPop (op_a op_b : Z).

Definition exec_stack (i : stack_instr) (s : cpu) : outcome cpu :=
  match i with
  | IPush a b => _push a b s
  | IPop a b => _pop a b s
  end.

Fixpoint exec_seq (prog : list stack_instr) (s : cpu) : outcome cpu :=
  match prog with
  | [] => Ok s
  | i :: rest => let* s1 := exec_stack i s in exec_seq rest s1
  end.

(** A POP whose operand names one of registers 0 to 6. *)
Definition pop_to_general (i : stack_instr) : Prop :=
  match i with
  | IPop a _ => exists n, py_index 8 a = Some n /\ n <> 7%nat
  | IPush _ _ => False
  end.

(** Properly nested sequences: every PUSH is closed by its own POP. *)
Inductive balanced : list stack_instr -> Prop :=
  | balanced_nil : balanced []
  | balanced_pair a b a' b' inner rest :
      balanced inner -> balanced rest ->
      balanced (IPush a b :: inner ++ IPop a' b' :: rest).

(** The operand of a POP does not name the stack pointer (7, or -1 under
    Python's subscript rule). *)
Definition pop_avoids_sp (i : stack_instr) : Prop :=
  match i with
  | IPop a _ => py_index 8 a <> Some 7%nat
  | IPush _ _ => True
  end.

(** States of a machine that was built by [__init__] and fed bytes: both
    arrays keep their sizes, no cell is negative, and SP has not been moved
    above the stack head. *)
Record well_formed (s : cpu) : Prop := {
  wf_reg_len : length (reg s) = 8%nat;
  wf_ram_len : length (ram s) = 256%nat;
  wf_reg_nonneg : Forall (Z.le 0) (reg s);
  wf_ram_nonneg : Forall (Z.le 0) (ram s);
  wf_sp : exists sp, reg s !! 7%nat = Some sp /\ sp <= STACK_HEAD
}.

(** Running [prog] leaves SP and every cell at or above it as they were. *)
Definition restores (prog : list stack_instr) : Prop :=
  forall s s' sp,
    well_formed s -> reg s !! 7%nat = Some sp -> exec_seq prog s = Ok s' ->
    well_formed s' /\ reg s' !! 7%nat = Some sp
    /\ forall j, (Z.to_nat sp <= j)%nat -> ram s' !! j = ram s !! j.

(** The stack round trip for one PUSH, an inner sequence and the matching
    POP, started in [s]: the popped register ends up with the value the
    pushed register had before the PUSH, and SP is back where it was. *)
Definition round_trip (s : cpu) (a b : Z) (inner : list stack_instr)
    (a' b' : Z) : Prop :=
  forall x s',
    getitem (reg s) a = Ok x ->
    exec_seq (IPush a b :: inner ++ [IPop a' b']) s = Ok s' ->
    getitem (reg s') a' = Ok x /\ getitem (reg s') SP = getitem (reg s) SP.

(** Two nested pairs, and the state they leave when run from [roomy]. *)
Definition nested_demo : list stack_instr :=
  [IPush 0 0; IPush 1 0; IPop 2 0; IPop 3 0].

Definition after_nested_demo : cpu :=
  match exec_seq nested_demo roomy with Ok s' => s' | _ => roomy end.

(** The entries of [perform_op], listed in the order of the stores. *)
Definition dispatch_table : list (Z * handler) :=
  [(LDI, _ldi); (PRN, _prn); (HLT, _hlt); (PUSH, _push); (POP, _pop);
   (JMP, _jmp); (JEQ, _jeq); (JNE, _jne);
   (ADD, _add); (MUL, _mul); (CMP, _cmp); (AND, _and); (OR, _or);
   (XOR, _xor); (NOT, _not); (SHL, _shl); (SHR, _shr)].

Definition registered_opcodes : list Z := dispatch_table.*1.

(** A handler that returns without touching [pc]. *)
Definition keeps_pc (h : handler) : Prop :=
  forall a b s s', h a b s = Ok s' -> pc s' = pc s.

(** Bits 7-6 and bit 4 of an op-code. *)
Definition operand_count (ir : Z) : Z := Z.land (Z.shiftr ir 6) 3.
Definition sets_pc (ir : Z) : bool := Z.testbit ir 4.

(** The three entries whose handler sets [pc] itself. *)
Definition jump_table : list (Z * handler) :=
  [(JMP, _jmp); (JEQ, _jeq); (JNE, _jne)].

(** A machine about to run [LDI R0,8] at address 0, and one about to run
    [JMP R2] with 77 in R2; each with the state its instruction leaves. *)
Definition ldi_demo : cpu :=
  set_running
    (match load [LDI; 0; 8; PRN; 0; HLT] init with Ok s => s | _ => init end)
    true.

Definition jmp_demo : cpu :=
  set_running
    (set_reg (set_ram init (JMP :: 2 :: replicate 254 0))
       [0; 0; 77; 0; 2; 0; 0; 244])
    true.

(** The state one pass of the loop body returns (the state itself when the
    pass does not return). *)
Definition after_body (s : cpu) : cpu :=
  match run_body s with Ok s' => s' | _ => s end.

(** The states in which the process exits on an unknown op-code and after
    HLT. *)
Definition unknown_exit (s : cpu) (ir : Z) : cpu :=
  print PrintShuttingDown (print (PrintUnknown ir) s).

Definition halted (s : cpu) (a b : Z) : cpu :=
  print PrintShuttingDown
    (set_pc (set_running (print (PrintTrace (pc s) HLT a b (reg s)) s) false)
       (pc s + 1)).

(** A running machine with nothing loaded, and one with HLT at address 0. *)
Definition idle : cpu := set_running init true.

Definition hlt_demo : cpu :=
  set_running (set_ram init (HLT :: replicate 255 0)) true.

(** A program that loads 254 into R0 and jumps there. *)
Definition wander : list Z := [LDI; 0; 254; JMP; 0].

(** Every operation tag that [alu] has a branch for. *)
Definition alu_tags : list string :=
  ["ADD"; "MUL"; "CMP"; "AND"; "OR"; "XOR"; "NOT"; "SHL"; "SHR"]%string.

(** An outcome whose exception, if any, satisfies [PR] and whose exit
    status, if any, satisfies [PE]. *)
Definition within {A : Type} (PR : exn -> Prop) (PE : Z -> Prop)
    (o : outcome A) : Prop :=
  match o with
  | Ok _ => True
  | Raise e => PR e
  | SysExit c _ => PE c
  end.

(** The exceptions a handler can die of, and the one status it exits with. *)
Definition handler_exn (e : exn) : Prop :=
  e = IndexError \/ e = ValueError \/ e = MemoryError \/ e = OverflowError.
Definition handler_exit (c : Z) : Prop := c = STACK_OVERFLOW.

(** A handler that returns with both arrays at the sizes it found them. *)
Definition keeps_sizes (h : handler) : Prop :=
  forall a b s s', h a b s = Ok s' ->
    length (reg s') = length (reg s) /\ length (ram s') = length (ram s).

(** A handler that, given a byte as its second operand, returns with bytes
    in every register and cell if it found bytes there. *)
Definition keeps_bytes (h : handler) : Prop :=
  forall a b s s', is_byte b ->
    Forall is_byte (reg s) -> Forall is_byte (ram s) ->
    h a b s = Ok s' ->
    Forall is_byte (reg s') /\ Forall is_byte (ram s').

(** The statuses the run loop can exit with on its own account. *)
Definition loop_exit (c : Z) : Prop :=
  c = UNKNOWN_INSTRUCTION \/ c = STACK_OVERFLOW.

(** A host for the worked examples: it builds every result of fewer than
    2^32 bits and runs out of memory beyond. *)
Definition demo_host : Host :=
  {| shl_fault := fun x y =>
       if Z.log2 (Z.abs x) + y <? 2 ^ 32 then None else Some OutOfMemory |}.

(** [loop_reaches s0 s]: the [while] loop entered in [s0] begins an
    iteration in [s] after zero or more complete passes through its body. *)
Inductive loop_reaches : cpu -> cpu -> Prop :=
  | reaches_here (s : cpu) : loop_reaches s s
  | reaches_next (s0 s1 s : cpu) :
      is_running s0 = true -> run_body s0 = Ok s1 -> loop_reaches s1 s ->
      loop_reaches s0 s.

(** A program that shifts 3 left by [2^64] places. *)
Definition big_shift : list Z :=
  [LDI; 0; 3; LDI; 1; 2 ^ 64; SHL; 0; 1; HLT].

(** Registers for the shifts: 3, a negative count, a count of 9, zero and
    a count of [2^64]. *)
Definition shifty : cpu := set_reg init [3; -1; 9; 0; 2 ^ 64; 0; 0; 244].

(** A machine with two values on its stack: 42 on top of 17. *)
Definition stacked : cpu :=
  set_ram (set_reg init [0; 0; 0; 0; 6; 0; 0; 242])
    (<[243%nat := 17]> (<[242%nat := 42]> (ram init))).

(** * Properties *)

(** ** Subscript lemmas *)

Section Subscripts.
Implicit Types (l : list Z) (i v : Z) (n : nat).

Lemma py_index_lt (len : nat) i n :
  py_index (Z.of_nat len) i = Some n -> (n < len)%nat.
Proof.
  unfold py_index.
  destruct ((0 <=? i) && (i <? Z.of_nat len)) eqn:E1.
  - intros [= <-]. apply andb_true_iff in E1 as [?%Z.leb_le ?%Z.ltb_lt]. lia.
  - destruct ((- Z.of_nat len <=? i) && (i <? 0)) eqn:E2; [|discriminate].
    intros [= <-]. apply andb_true_iff in E2 as [?%Z.leb_le ?%Z.ltb_lt]. lia.
Qed.

Lemma py_index_nonneg (len : Z) i :
  0 <= i < len -> py_index len i = Some (Z.to_nat i).
Proof.
  intros [H1 H2]. unfold py_index.
  apply Z.leb_le in H1. apply Z.ltb_lt in H2. by rewrite H1, H2.
Qed.

Lemma py_index_None (len : Z) i :
  len <= i -> 0 <= len -> py_index len i = None.
Proof.
  intros H1 H2. unfold py_index.
  replace (i <? len) with false by (symmetry; apply Z.ltb_ge; lia).
  replace (i <? 0) with false by (symmetry; apply Z.ltb_ge; lia).
  by rewrite !andb_false_r.
Qed.

Lemma getitem_inv l i v :
  getitem l i = Ok v ->
  exists n, py_index (Z.of_nat (length l)) i = Some n /\ l !! n = Some v.
Proof.
  unfold getitem. destruct (py_index _ i) as [n|]; [|discriminate].
  destruct (l !! n) as [w|] eqn:E; [|discriminate].
  intros [= <-]. eauto.
Qed.

Lemma getitem_intro l i n v :
  py_index (Z.of_nat (length l)) i = Some n -> l !! n = Some v ->
  getitem l i = Ok v.
Proof. unfold getitem. by intros -> ->. Qed.

Lemma getitem_total l i n :
  py_index (Z.of_nat (length l)) i = Some n -> exists v, getitem l i = Ok v.
Proof.
  intros H. destruct (lookup_lt_is_Some_2 l n (py_index_lt _ _ _ H)) as [v Hv].
  exists v. by apply getitem_intro with n.
Qed.

Lemma getitem_nonneg l i :
  0 <= i < Z.of_nat (length l) ->
  getitem l i = match l !! Z.to_nat i with Some v => Ok v | None => Raise IndexError end.
Proof. intros H. unfold getitem. by rewrite py_index_nonneg. Qed.

Lemma getitem_past_end l i :
  Z.of_nat (length l) <= i -> getitem l i = Raise IndexError.
Proof. intros H. unfold getitem. rewrite py_index_None; [done|lia..]. Qed.

Lemma setitem_inv l i v l' :
  setitem l i v = Ok l' ->
  exists n, py_index (Z.of_nat (length l)) i = Some n /\ l' = <[n := v]> l.
Proof.
  unfold setitem. destruct (py_index _ i) as [n|]; [|discriminate].
  intros [= <-]. eauto.
Qed.

Lemma setitem_intro l i v n :
  py_index (Z.of_nat (length l)) i = Some n -> setitem l i v = Ok (<[n := v]> l).
Proof. unfold setitem. by intros ->. Qed.

Lemma length_setitem l i v l' : setitem l i v = Ok l' -> length l' = length l.
Proof. intros (n & _ & ->)%setitem_inv. apply length_insert. Qed.

Lemma getitem_setitem_eq l i v l' : setitem l i v = Ok l' -> getitem l' i = Ok v.
Proof.
  intros (n & Hn & ->)%setitem_inv.
  apply getitem_intro with n.
  - by rewrite length_insert.
  - apply list_lookup_insert_eq. by eapply py_index_lt.
Qed.

Lemma setitem_of_getitem l i x v :
  getitem l i = Ok x -> exists l', setitem l i v = Ok l'.
Proof. intros (n & Hn & _)%getitem_inv. eexists. by apply setitem_intro. Qed.

(** Storing back the value a cell already holds changes nothing. *)
Lemma setitem_same l i x l' : getitem l i = Ok x -> setitem l i x = Ok l' -> l' = l.
Proof.
  intros (n & Hn & Hx)%getitem_inv (m & Hm & ->)%setitem_inv.
  rewrite Hn in Hm. injection Hm as <-. by apply list_insert_id.
Qed.
End Subscripts.

(** ** Bit-level facts used by the flag and clamp arguments *)

Lemma clamp_range (x : Z) : 0 <= Z.land x ONE_BYTE <= 255.
Proof.
  change ONE_BYTE with (Z.ones 8). rewrite Z.land_ones by lia.
  pose proof (Z.mod_pos_bound x (2 ^ 8) ltac:(lia)). lia.
Qed.

Lemma clamp_mod (x : Z) : Z.land x ONE_BYTE = x mod 256.
Proof. change ONE_BYTE with (Z.ones 8). by rewrite Z.land_ones by lia. Qed.

Lemma clamp_byte (x : Z) : 0 <= x <= 255 -> Z.land x ONE_BYTE = x.
Proof. intros H. rewrite clamp_mod. apply Z.mod_small. lia. Qed.

Lemma cmp_bits_test (f F G : Z) :
  Z.land CMP_CLEAR G = 0 ->
  Z.land (Z.lor (Z.land f CMP_CLEAR) F) G = Z.land F G.
Proof.
  intros H. rewrite Z.land_lor_distr_l, <- Z.land_assoc, H, Z.land_0_r.
  apply Z.lor_0_l.
Qed.

Lemma cmp_bits_keep (f F : Z) :
  Z.land F CMP_CLEAR = 0 ->
  Z.land (Z.lor (Z.land f CMP_CLEAR) F) CMP_CLEAR = Z.land f CMP_CLEAR.
Proof.
  intros H. rewrite Z.land_lor_distr_l, <- Z.land_assoc, Z.land_diag, H.
  apply Z.lor_0_r.
Qed.

(** ** The ALU *)

Lemma alu_dispatch_cmp s a b x y :
  getitem (reg s) a = Ok x -> getitem (reg s) b = Ok y ->
  alu_dispatch "CMP" a b s
  = Ok (set_fl s (Z.lor (Z.land (fl s) CMP_CLEAR) (cmp_flag x y))).
Proof.
  intros Ha Hb. unfold alu_dispatch, cmp_flag. cbn [String.eqb Ascii.eqb Bool.eqb].
  cbn [set_fl reg fl]. rewrite Ha, Hb. cbn [bind].
  destruct (x <? y); [done|]. by destruct (x >? y).
Qed.

Lemma cmp_flag_cases (x y : Z) :
  (x < y /\ cmp_flag x y = LT) \/ (x > y /\ cmp_flag x y = GT)
  \/ (x = y /\ cmp_flag x y = EQ).
Proof.
  unfold cmp_flag.
  destruct (Z.ltb_spec x y); [by left|].
  destruct (Z.gtb_spec x y); [right; left; split; [lia|done]|].
  right; right. split; [lia|done].
Qed.

(** The clamp at the end of [alu], started from the state the chain left. *)
Lemma alu_after_dispatch op a b s s1 v :
  alu_dispatch op a b s = Ok s1 -> getitem (reg s1) a = Ok v ->
  exists r, setitem (reg s1) a (Z.land v ONE_BYTE) = Ok r
            /\ alu op a b s = Ok (set_reg s1 r).
Proof.
  intros Hd Hv. unfold alu. rewrite Hd. cbn [bind]. rewrite Hv. cbn [bind].
  destruct (setitem_of_getitem _ _ _ (Z.land v ONE_BYTE) Hv) as [r Hr].
  exists r. by rewrite Hr.
Qed.

Lemma reg_binop_exec f a b s x y v :
  getitem (reg s) a = Ok x -> getitem (reg s) b = Ok y -> f x y = Ok v ->
  exists r, setitem (reg s) a v = Ok r /\ reg_binop f a b s = Ok (set_reg s r).
Proof.
  intros Ha Hb Hf. unfold reg_binop. rewrite Ha, Hb. cbn [bind]. rewrite Hf.
  cbn [bind]. destruct (setitem_of_getitem _ _ _ v Ha) as [r Hr].
  exists r. by rewrite Hr.
Qed.

Lemma alu_binop_exec f op a b s x y v :
  alu_dispatch op a b s = reg_binop f a b s ->
  getitem (reg s) a = Ok x -> getitem (reg s) b = Ok y -> f x y = Ok v ->
  exists s', alu op a b s = Ok s'
             /\ getitem (reg s') a = Ok (Z.land v ONE_BYTE).
Proof.
  intros Hd Ha Hb Hf.
  destruct (reg_binop_exec f a b s x y v Ha Hb Hf) as (r & Hr & Hop).
  rewrite <- Hd in Hop.
  destruct (alu_after_dispatch op a b s _ v Hop) as (r' & Hr' & Halu).
  { cbn [set_reg reg]. by eapply getitem_setitem_eq. }
  eexists. split; [exact Halu|]. cbn [set_reg reg] in *.
  by eapply getitem_setitem_eq.
Qed.

Lemma alu_not_exec a b s x :
  getitem (reg s) a = Ok x ->
  exists s', alu "NOT" a b s = Ok s'
             /\ getitem (reg s') a = Ok (Z.land (Z.lnot x) ONE_BYTE).
Proof.
  intros Ha.
  destruct (setitem_of_getitem _ _ _ (Z.lnot x) Ha) as [r Hr].
  assert (Hop : alu_dispatch "NOT" a b s = Ok (set_reg s r)).
  { unfold alu_dispatch. cbn [String.eqb Ascii.eqb Bool.eqb].
    rewrite Ha. cbn [bind]. by rewrite Hr. }
  destruct (alu_after_dispatch _ a b s _ (Z.lnot x) Hop) as (r' & Hr' & Halu).
  { cbn [set_reg reg]. by eapply getitem_setitem_eq. }
  eexists. split; [exact Halu|]. cbn [set_reg reg] in *.
  by eapply getitem_setitem_eq.
Qed.

(** Whatever the chain did, a returning [alu] leaves a byte in [reg_a]. *)
Lemma alu_result_is_byte op a b s s' :
  alu op a b s = Ok s' ->
  exists v, getitem (reg s') a = Ok v /\ 0 <= v <= 255.
Proof.
  unfold alu. destruct (alu_dispatch op a b s) as [s1| |]; [|discriminate..].
  cbn [bind]. destruct (getitem (reg s1) a) as [x| |]; [|discriminate..].
  cbn [bind]. destruct (setitem _ a _) as [r| |] eqn:Hr; [|discriminate..].
  intros [= <-]. exists (Z.land x ONE_BYTE). split; [|apply clamp_range].
  cbn [set_reg reg]. by eapply getitem_setitem_eq.
Qed.

(** When a left shift returns: the count is not negative and the operand
    is zero or the host can build the result. *)
Lemma py_shl_returns (x y : Z) :
  0 <= y -> x = 0 \/ shl_fault x y = None ->
  py_shl x y = Ok (Z.shiftl x y).
Proof.
  intros Hy Hx. unfold py_shl.
  replace (y <? 0) with false by (symmetry; apply Z.ltb_ge; lia).
  destruct (Z.eqb_spec x 0) as [->|Hne]; [by rewrite Z.shiftl_0_l|].
  destruct Hx as [Hx| ->]; [contradiction|done].
Qed.

Lemma py_shl_fails (x y : Z) (f : shift_fault) :
  0 <= y -> x <> 0 -> shl_fault x y = Some f ->
  py_shl x y = Raise (fault_exn f).
Proof.
  intros Hy Hx Hf. unfold py_shl.
  replace (y <? 0) with false by (symmetry; apply Z.ltb_ge; lia).
  destruct (Z.eqb_spec x 0); [contradiction|]. by rewrite Hf.
Qed.

Lemma alu_total op a b s x y :
  In op clamped_ops ->
  getitem (reg s) a = Ok x -> getitem (reg s) b = Ok y ->
  (In op shift_ops -> 0 <= y) ->
  (op = "SHL"%string -> x = 0 \/ shl_fault x y = None) ->
  exists s', alu op a b s = Ok s'.
Proof.
  intros Hop Ha Hb Hy Hhost.
  assert (Hsh : 0 <= y -> (y <? 0) = false)
    by (intros ?; apply Z.ltb_ge; lia).
  cbn in Hop.
  destruct Hop as [<-|[<-|[<-|[<-|[<-|[<-|[<-|[<-|[]]]]]]]]].
  - destruct (alu_binop_exec (fun x y => Ok (x + y)) "ADD" a b s x y _
                eq_refl Ha Hb eq_refl) as (s' & ? & _); eauto.
  - destruct (alu_binop_exec (fun x y => Ok (x * y)) "MUL" a b s x y _
                eq_refl Ha Hb eq_refl) as (s' & ? & _); eauto.
  - destruct (alu_binop_exec (fun x y => Ok (Z.land x y)) "AND" a b s x y _
                eq_refl Ha Hb eq_refl) as (s' & ? & _); eauto.
  - destruct (alu_binop_exec (fun x y => Ok (Z.lor x y)) "OR" a b s x y _
                eq_refl Ha Hb eq_refl) as (s' & ? & _); eauto.
  - destruct (alu_binop_exec (fun x y => Ok (Z.lxor x y)) "XOR" a b s x y _
                eq_refl Ha Hb eq_refl) as (s' & ? & _); eauto.
  - destruct (alu_not_exec a b s x Ha) as (s' & ? & _); eauto.
  - assert (0 <= y) by (apply Hy; cbn; auto).
    destruct (alu_binop_exec py_shl "SHL" a b s x y (Z.shiftl x y)
                eq_refl Ha Hb) as (s' & ? & _); eauto.
    apply py_shl_returns; [done|by apply Hhost].
  - assert (0 <= y) by (apply Hy; cbn; auto).
    destruct (alu_binop_exec py_shr "SHR" a b s x y (Z.shiftr x y)
                eq_refl Ha Hb) as (s' & ? & _); eauto.
    unfold py_shr. by rewrite Hsh.
Qed.

(** C1: for every pair of values [x], [y] held by the registers named by
    the operands, CMP returns, the bits above the three flag bits are kept,
    the three flag bits are cleared and exactly one of them is set again:
    LT when [x < y], GT when [x > y], EQ otherwise. *)
Theorem cmp_sets_exactly_one_flag (s : cpu) (a b x y : Z) :
  getitem (reg s) a = Ok x -> getitem (reg s) b = Ok y ->
  exists s', alu "CMP" a b s = Ok s'
    /\ Z.land (fl s') 7 = cmp_flag x y
    /\ flag_set LT s' = (x <? y)
    /\ flag_set GT s' = (x >? y)
    /\ flag_set EQ s' = (x =? y)
    /\ Z.land (fl s') CMP_CLEAR = Z.land (fl s) CMP_CLEAR.
Proof.
  intros Ha Hb.
  pose proof (alu_dispatch_cmp s a b x y Ha Hb) as Hd.
  destruct (alu_after_dispatch _ a b s _ x Hd Ha) as (r & Hr & Halu).
  eexists. split; [exact Halu|].
  unfold flag_set. cbn [set_reg set_fl fl].
  rewrite !cmp_bits_test by reflexivity.
  assert (Hk : Z.land (cmp_flag x y) CMP_CLEAR = 0).
  { destruct (cmp_flag_cases x y) as [[_ ->]|[[_ ->]|[_ ->]]]; reflexivity. }
  rewrite (cmp_bits_keep _ _ Hk).
  destruct (cmp_flag_cases x y) as [[H ->]|[[H ->]|[H ->]]];
    destruct (Z.ltb_spec x y), (Z.gtb_spec x y), (Z.eqb_spec x y);
    try lia; repeat split; reflexivity.
Qed.

(** C2: for each of ADD, MUL, AND, OR, XOR, NOT, SHL and SHR, whatever the
    registers hold, a returning [alu] leaves a value of [0, 255] in
    [reg[reg_a]]; it does return whenever the operands name registers (a
    shift count must not be negative, which Python rejects, and a left
    shift must be one the host can build); and with 200 and 100 in the two
    registers ADD leaves 44. *)
Theorem alu_clamps_reg_a :
  (forall op a b s s', In op clamped_ops -> alu op a b s = Ok s' ->
     exists v, getitem (reg s') a = Ok v /\ 0 <= v <= 255)
  /\ (forall op a b s x y, In op clamped_ops ->
        getitem (reg s) a = Ok x -> getitem (reg s) b = Ok y ->
        (In op shift_ops -> 0 <= y) ->
        (op = "SHL"%string -> x = 0 \/ shl_fault x y = None) ->
        exists s' v, alu op a b s = Ok s'
                     /\ getitem (reg s') a = Ok v /\ 0 <= v <= 255)
  /\ (forall a b s, getitem (reg s) a = Ok 200 -> getitem (reg s) b = Ok 100 ->
        exists s', alu "ADD" a b s = Ok s' /\ getitem (reg s') a = Ok 44).
Proof.
  split; [|split].
  - intros op a b s s' _. apply alu_result_is_byte.
  - intros op a b s x y Hop Ha Hb Hy Hhost.
    destruct (alu_total op a b s x y Hop Ha Hb Hy Hhost) as [s' Hs'].
    destruct (alu_result_is_byte _ _ _ _ _ Hs') as (v & Hv & Hr). eauto.
  - intros a b s Ha Hb.
    apply (alu_binop_exec (fun x y => Ok (x + y)) "ADD" a b s 200 100 300
             eq_refl Ha Hb eq_refl).
Qed.

(** C8: when every register holds a byte, CMP on two registers returns and
    leaves the register file (and memory, the program counter, the running
    flag and the output) as it found them; only [fl] may differ. *)
Theorem cmp_mutates_no_register (s : cpu) (a b x y : Z) :
  Forall is_byte (reg s) ->
  getitem (reg s) a = Ok x -> getitem (reg s) b = Ok y ->
  exists s', alu "CMP" a b s = Ok s'
    /\ reg s' = reg s /\ ram s' = ram s /\ pc s' = pc s
    /\ is_running s' = is_running s /\ stdout s' = stdout s.
Proof.
  intros Hbytes Ha Hb.
  pose proof (alu_dispatch_cmp s a b x y Ha Hb) as Hd.
  destruct (alu_after_dispatch _ a b s _ x Hd Ha) as (r & Hr & Halu).
  eexists. split; [exact Halu|]. cbn [set_reg set_fl reg ram pc is_running stdout] in *.
  repeat split.
  destruct (getitem_inv _ _ _ Ha) as (n & _ & Hn).
  pose proof (Forall_lookup_1 _ _ _ _ Hbytes Hn) as Hx.
  rewrite (clamp_byte x Hx) in Hr.
  exact (setitem_same _ _ _ _ Ha Hr).
Qed.

(** ** Construction *)

(** C10: a freshly constructed CPU has 0xF4 in register 7 and 0 in the
    seven others, the program counter and the flags at 0, and 256 memory
    cells that all hold 0. *)
Theorem init_state :
  reg init = [0; 0; 0; 0; 0; 0; 0; STACK_HEAD]
  /\ getitem (reg init) SP = Ok 0xf4
  /\ pc init = 0
  /\ fl init = 0
  /\ length (ram init) = 256%nat
  /\ Forall (eq 0) (ram init)
  /\ is_running init = false.
Proof.
  repeat split.
  cbn [init ram]. by apply Forall_replicate.
Qed.

(** ** Registers and memory of the fixed sizes [__init__] gives them *)

Section FixedSize.
Implicit Types (l : list Z) (i v : Z) (n m : nat).

Lemma getitem_reg l i v :
  length l = 8%nat -> 0 <= i < 8 ->
  getitem l i = Ok v <-> l !! Z.to_nat i = Some v.
Proof.
  intros Hl Hi. rewrite getitem_nonneg by (rewrite Hl; lia).
  destruct (l !! Z.to_nat i); split; congruence.
Qed.

Lemma getitem_insert l i n m v :
  py_index (Z.of_nat (length l)) i = Some m ->
  getitem (<[n := v]> l) i = if decide (n = m) then Ok v else getitem l i.
Proof.
  intros Hm. unfold getitem. rewrite length_insert, Hm.
  destruct (decide (n = m)) as [->|Hne].
  - rewrite list_lookup_insert_eq; [done|by eapply py_index_lt].
  - by rewrite list_lookup_insert_ne.
Qed.

Lemma read_regs_all l : length l = 8%nat -> read_regs l (seqZ 0 8) = Ok l.
Proof.
  intros Hl. do 9 (destruct l as [|? l]; try discriminate). reflexivity.
Qed.

Lemma trace_ok s b0 b1 b2 :
  length (reg s) = 8%nat -> fetch s = Ok (b0, b1, b2) ->
  trace s = Ok (print (PrintTrace (pc s) b0 b1 b2 (reg s)) s).
Proof.
  intros Hl. unfold fetch, trace.
  destruct (ram_read (pc s) s) as [x0| |]; [|discriminate..]. cbn [bind].
  destruct (ram_read (pc s + 1) s) as [x1| |]; [|discriminate..]. cbn [bind].
  destruct (ram_read (pc s + 2) s) as [x2| |]; [|discriminate..]. cbn [bind].
  intros [= -> -> ->]. by rewrite read_regs_all.
Qed.
End FixedSize.

(** ** Loading

    A program of [k] values that fits in memory returns from [load] with
    [k] in the program-end register and every other register as before. *)

Lemma load_loop_fits (values : list Z) (address : Z) (m : list Z) :
  0 <= address ->
  address + Z.of_nat (length values) <= Z.of_nat (length m) ->
  exists m', load_loop values address m
             = (m', Some (address + Z.of_nat (length values)))
             /\ length m' = length m.
Proof.
  revert address m. induction values as [|v values IH]; intros address m H0 Hfit.
  - exists m. cbn. split; [|done]. do 2 f_equal. lia.
  - cbn [load_loop length] in *.
    rewrite (setitem_intro m address v (Z.to_nat address))
      by (apply py_index_nonneg; lia).
    destruct (IH (address + 1) (<[Z.to_nat address := v]> m)) as (m' & Hm' & Hl).
    + lia.
    + rewrite length_insert. lia.
    + exists m'. rewrite Hm'. split; [do 2 f_equal; lia|].
      by rewrite Hl, length_insert.
Qed.

Lemma load_program_end (values : list Z) (s : cpu) :
  length (reg s) = 8%nat -> (length values <= length (ram s))%nat ->
  exists s', load values s = Ok s'
    /\ reg s' = <[4%nat := Z.of_nat (length values)]> (reg s)
    /\ length (ram s') = length (ram s).
Proof.
  intros Hl Hfit.
  destruct (load_loop_fits values 0 (ram s)) as (m' & Hm' & Hlm); [lia..|].
  unfold load. rewrite Hm'. cbn [Z.add].
  rewrite (setitem_intro (reg s) PROGRAM_END _ 4%nat) by by rewrite Hl.
  cbn [bind]. by eexists.
Qed.

(** ** PUSH *)

Lemma push_within s a b sp k n m :
  length (reg s) = 8%nat ->
  reg s !! 7%nat = Some sp -> reg s !! 4%nat = Some k ->
  k <= sp - 1 ->
  py_index 8 a = Some n ->
  py_index (Z.of_nat (length (ram s))) (sp - 1) = Some m ->
  exists v, <[7%nat := sp - 1]> (reg s) !! n = Some v
            /\ _push a b s = Ok (pushed s sp m v).
Proof.
  intros Hl Hsp Hk Hle Hn Hm.
  assert (H7 : py_index (Z.of_nat (length (reg s))) SP = Some 7%nat) by by rewrite Hl.
  assert (H4 : py_index (Z.of_nat (length (reg s))) PROGRAM_END = Some 4%nat) by by rewrite Hl.
  assert (Hn' : py_index (Z.of_nat (length (reg s))) a = Some n) by by rewrite Hl.
  destruct (lookup_lt_is_Some_2 (<[7%nat := sp - 1]> (reg s)) n) as [v Hv].
  { rewrite length_insert. by eapply py_index_lt. }
  exists v. split; [done|].
  unfold _push. rewrite (getitem_intro _ _ _ _ H7 Hsp). cbn [bind].
  rewrite (getitem_intro _ _ _ _ H4 Hk). cbn [bind].
  replace (sp - 1 >=? k) with true by (symmetry; apply Z.geb_le; lia).
  rewrite (setitem_intro _ _ _ _ H7). cbn [bind set_reg reg].
  rewrite getitem_insert with (m := 7%nat) by done.
  rewrite decide_True by done. cbn [bind].
  erewrite getitem_intro; [|by rewrite length_insert|exact Hv]. cbn [bind].
  unfold ram_write. cbn [ram]. by rewrite (setitem_intro _ _ _ _ Hm).
Qed.

Lemma push_beyond s a b sp k b0 b1 b2 :
  length (reg s) = 8%nat ->
  reg s !! 7%nat = Some sp -> reg s !! 4%nat = Some k ->
  sp - 1 < k ->
  fetch s = Ok (b0, b1, b2) ->
  _push a b s = SysExit STACK_OVERFLOW (overflowed s b0 b1 b2).
Proof.
  intros Hl Hsp Hk Hlt Hf.
  assert (H7 : py_index (Z.of_nat (length (reg s))) SP = Some 7%nat) by by rewrite Hl.
  assert (H4 : py_index (Z.of_nat (length (reg s))) PROGRAM_END = Some 4%nat) by by rewrite Hl.
  unfold _push. rewrite (getitem_intro _ _ _ _ H7 Hsp). cbn [bind].
  rewrite (getitem_intro _ _ _ _ H4 Hk). cbn [bind].
  replace (sp - 1 >=? k) with false by (symmetry; rewrite Z.geb_leb; apply Z.leb_gt; lia).
  rewrite (trace_ok (print PrintStackOverflow s) b0 b1 b2 Hl Hf).
  reflexivity.
Qed.

Lemma perform_op_PUSH : perform_op !! PUSH = Some _push.
Proof. reflexivity. Qed.

Lemma overflowed_stdout s b0 b1 b2 :
  stdout (overflowed s b0 b1 b2)
  = stdout s ++ [PrintStackOverflow; PrintTrace (pc s) b0 b1 b2 (reg s);
                 PrintShuttingDown].
Proof. cbn. by rewrite <- !app_assoc. Qed.

(** C3: with the program end [k] in register 4 and the stack pointer [sp]
    in register 7, a PUSH with [sp - 1 >= k] returns with SP decremented by
    one and the operand register's value stored at the new [ram[SP]]
    (everything else, register 4 included, untouched); a PUSH with
    [sp - 1 < k] does not return: it prints the diagnostic, the trace and
    the shutdown notice and exits with status 3, which also ends the run
    loop at once. *)
Theorem push_stack_boundary (s : cpu) (a b sp k : Z) :
  length (reg s) = 8%nat -> length (ram s) = 256%nat ->
  getitem (reg s) SP = Ok sp -> getitem (reg s) PROGRAM_END = Ok k ->
  0 <= k -> sp <= 256 ->
  (k <= sp - 1 -> forall n, py_index 8 a = Some n ->
     exists s' v, _push a b s = Ok s'
       /\ getitem (reg s') SP = Ok (sp - 1)
       /\ ram_read (sp - 1) s' = Ok v
       /\ getitem (reg s') a = Ok v
       /\ (if decide (n = 7%nat) then v = sp - 1 else getitem (reg s) a = Ok v)
       /\ reg s' = <[7%nat := sp - 1]> (reg s)
       /\ ram s' = <[Z.to_nat (sp - 1) := v]> (ram s)
       /\ getitem (reg s') PROGRAM_END = Ok k
       /\ pc s' = pc s /\ fl s' = fl s
       /\ is_running s' = is_running s /\ stdout s' = stdout s)
  /\ (sp - 1 < k -> forall b0 b1 b2, fetch s = Ok (b0, b1, b2) ->
        _push a b s = SysExit STACK_OVERFLOW (overflowed s b0 b1 b2)
        /\ stdout (overflowed s b0 b1 b2)
           = stdout s ++ [PrintStackOverflow;
                          PrintTrace (pc s) b0 b1 b2 (reg s);
                          PrintShuttingDown])
  /\ (sp - 1 < k -> is_running s = true -> fetch s = Ok (PUSH, a, b) ->
        forall fuel, run_loop (S fuel) s
          = Some (SysExit STACK_OVERFLOW
                    (overflowed (print (PrintTrace (pc s) PUSH a b (reg s)) s)
                       PUSH a b))).
Proof.
  intros Hl Hm Hsp Hk Hk0 Hsp256.
  apply getitem_reg in Hsp; [|done|done]. apply getitem_reg in Hk; [|done|done].
  change (Z.to_nat SP) with 7%nat in Hsp.
  change (Z.to_nat PROGRAM_END) with 4%nat in Hk.
  split; [|split].
  - intros Hle n Hn.
    assert (Hidx : py_index (Z.of_nat (length (ram s))) (sp - 1)
                   = Some (Z.to_nat (sp - 1))).
    { apply py_index_nonneg. rewrite Hm. lia. }
    destruct (push_within s a b sp k n _ Hl Hsp Hk Hle Hn Hidx) as (v & Hv & Hp).
    assert (Hl' : length (<[7%nat := sp - 1]> (reg s)) = 8%nat)
      by by rewrite length_insert.
    exists (pushed s sp (Z.to_nat (sp - 1)) v), v.
    split; [exact Hp|]. cbn [pushed set_ram set_reg reg ram pc fl is_running stdout].
    assert (Ha : getitem (<[7%nat := sp - 1]> (reg s)) a = Ok v).
    { apply getitem_intro with n; [by rewrite Hl'|done]. }
    repeat split; try done.
    + apply getitem_reg; [done..|]. apply list_lookup_insert_eq. rewrite Hl. lia.
    + unfold ram_read, pushed. cbn [ram set_ram].
      apply getitem_intro with (Z.to_nat (sp - 1)).
      * by rewrite length_insert.
      * apply list_lookup_insert_eq. rewrite Hm. lia.
    + destruct (decide (n = 7%nat)) as [->|Hne].
      * rewrite list_lookup_insert_eq in Hv by (rewrite Hl; lia). congruence.
      * rewrite list_lookup_insert_ne in Hv by done.
        apply getitem_intro with n; [by rewrite Hl|done].
    + apply getitem_reg; [done..|]. by rewrite list_lookup_insert_ne.
  - intros Hlt b0 b1 b2 Hf. split; [|apply overflowed_stdout].
    by apply push_beyond with sp k.
  - intros Hlt Hrun Hf fuel. cbn [run_loop]. rewrite Hrun.
    unfold run_body. rewrite Hf. cbn [bind]. rewrite perform_op_PUSH.
    rewrite (trace_ok s PUSH a b Hl Hf). cbn [bind].
    rewrite (push_beyond _ a b sp k PUSH a b); try done.
Qed.

(** ** POP *)

Lemma pop_exec s a b sp v n m :
  length (reg s) = 8%nat ->
  reg s !! 7%nat = Some sp ->
  py_index (Z.of_nat (length (ram s))) sp = Some m -> ram s !! m = Some v ->
  py_index 8 a = Some n ->
  _pop a b s = Ok (popped s sp v n).
Proof.
  intros Hl Hsp Hm Hv Hn.
  assert (H7 : py_index (Z.of_nat (length (reg s))) SP = Some 7%nat) by by rewrite Hl.
  assert (Hn' : py_index (Z.of_nat (length (reg s))) a = Some n) by by rewrite Hl.
  unfold _pop, popped. rewrite (getitem_intro _ _ _ _ H7 Hsp). cbn [bind].
  unfold ram_read. rewrite (getitem_intro _ _ _ _ Hm Hv). cbn [bind].
  rewrite (setitem_intro _ _ _ _ Hn'). cbn [bind set_reg reg].
  rewrite !getitem_insert with (m := 7%nat) by done.
  rewrite (getitem_intro _ _ _ _ H7 Hsp).
  assert (H7' : py_index (Z.of_nat (length (<[n := v]> (reg s)))) SP = Some 7%nat)
    by by rewrite length_insert.
  destruct (decide (n = 7%nat)) as [->|Hne]; cbn [bind].
  - destruct (v <? STACK_HEAD); [|done]. cbn [bind].
    by rewrite (setitem_intro _ _ _ _ H7').
  - destruct (sp <? STACK_HEAD); [|done]. cbn [bind].
    by rewrite (setitem_intro _ _ _ _ H7').
Qed.

Lemma popped_sp_lookup s sp v n :
  length (reg s) = 8%nat -> reg s !! 7%nat = Some sp -> (n < 8)%nat ->
  reg (popped s sp v n) !! 7%nat = Some (popped_sp sp v n).
Proof.
  intros Hl Hsp Hn. unfold popped, popped_sp. cbn [set_reg reg].
  destruct (decide (n = 7%nat)) as [->|Hne].
  - destruct (v <? STACK_HEAD).
    + apply list_lookup_insert_eq. rewrite length_insert, Hl. lia.
    + apply list_lookup_insert_eq. rewrite Hl. lia.
  - destruct (sp <? STACK_HEAD).
    + apply list_lookup_insert_eq. rewrite length_insert, Hl. lia.
    + by rewrite list_lookup_insert_ne.
Qed.

Lemma popped_sp_saturates sp v n :
  n <> 7%nat -> sp <= STACK_HEAD ->
  popped_sp sp v n = Z.min STACK_HEAD (sp + 1).
Proof.
  intros Hn Hsp. unfold popped_sp. rewrite decide_False by done.
  destruct (Z.ltb_spec sp STACK_HEAD); lia.
Qed.

Lemma popped_length s sp v n : length (reg (popped s sp v n)) = length (reg s).
Proof.
  unfold popped. cbn [set_reg reg].
  destruct (_ <? STACK_HEAD); by rewrite ?length_insert.
Qed.

(** POPs alone never take SP past the stack head: from [sp <= 0xF4], after
    any number of them SP is [min 0xF4 (sp + count)]; memory is only read. *)
Lemma pops_saturate (prog : list stack_instr) :
  Forall pop_to_general prog ->
  forall s sp,
    length (reg s) = 8%nat -> length (ram s) = 256%nat ->
    reg s !! 7%nat = Some sp -> 0 <= sp <= STACK_HEAD ->
    exists s', exec_seq prog s = Ok s'
      /\ length (reg s') = 8%nat
      /\ reg s' !! 7%nat = Some (Z.min STACK_HEAD (sp + Z.of_nat (length prog)))
      /\ ram s' = ram s.
Proof.
  induction 1 as [|i prog Hi _ IH]; intros s sp Hl Hm Hsp Hr.
  - exists s. split; [done|]. split; [done|]. split; [|done].
    rewrite Hsp. f_equal. cbn. lia.
  - destruct i as [|a b]; [done|]. destruct Hi as (n & Hn & Hn7).
    assert (Hidx : py_index (Z.of_nat (length (ram s))) sp = Some (Z.to_nat sp)).
    { apply py_index_nonneg. rewrite Hm. unfold STACK_HEAD in Hr. lia. }
    destruct (lookup_lt_is_Some_2 (ram s) (Z.to_nat sp)) as [v Hv].
    { rewrite Hm. unfold STACK_HEAD in Hr. lia. }
    pose proof (pop_exec s a b sp v n _ Hl Hsp Hidx Hv Hn) as Hpop.
    pose proof (py_index_lt 8 a n Hn) as Hn8.
    pose proof (popped_sp_lookup s sp v n Hl Hsp Hn8) as Hsp'.
    rewrite popped_sp_saturates in Hsp' by (done || lia).
    destruct (IH (popped s sp v n) (Z.min STACK_HEAD (sp + 1)))
      as (s' & Hs' & Hl' & Hfin & Hram).
    + by rewrite popped_length.
    + done.
    + exact Hsp'.
    + unfold STACK_HEAD in *. lia.
    + exists s'. cbn [exec_seq exec_stack]. rewrite Hpop. cbn [bind].
      split; [done|]. split; [done|]. split; [|exact Hram].
      rewrite Hfin. f_equal. cbn [length].
      unfold STACK_HEAD in *. lia.
Qed.

(** C7: with [sp] in register 7 addressing the memory cell that holds [v],
    POP into register [n] returns.  It puts that [v], the content of
    [ram[SP]], into the register, then adds one to SP exactly when SP (as
    it stands after that write) is below 0xF4; the register file it leaves
    is given cell by cell, and memory, [pc], the flags, the running flag
    and the output are untouched.  Hence a POP into a register other than
    SP takes SP from [sp <= 0xF4] to [min 0xF4 (sp + 1)], SP stays at 0xF4
    once there, and any run of such POPs from [sp <= 0xF4] ends with SP at
    [min 0xF4 (sp + count)], however many more POPs than PUSHes there
    were. *)
Theorem pop_reads_then_saturates (s : cpu) (a b sp v : Z) (n : nat) :
  length (reg s) = 8%nat -> length (ram s) = 256%nat ->
  reg s !! 7%nat = Some sp -> 0 <= sp < 256 ->
  ram s !! Z.to_nat sp = Some v ->
  py_index 8 a = Some n ->
  (exists s', _pop a b s = Ok s'
     /\ reg s' = (let sp1 := if decide (n = 7%nat) then v else sp in
                  if sp1 <? STACK_HEAD
                  then <[7%nat := sp1 + 1]> (<[n := v]> (reg s))
                  else <[n := v]> (reg s))
     /\ (n <> 7%nat -> reg s' !! n = Some v)
     /\ (n <> 7%nat ->
         reg s' !! 7%nat = Some (if sp <? STACK_HEAD then sp + 1 else sp))
     /\ (n <> 7%nat -> sp <= STACK_HEAD ->
         reg s' !! 7%nat = Some (Z.min STACK_HEAD (sp + 1)))
     /\ (forall j, j <> n -> j <> 7%nat -> reg s' !! j = reg s !! j)
     /\ ram s' = ram s /\ pc s' = pc s /\ fl s' = fl s
     /\ is_running s' = is_running s /\ stdout s' = stdout s)
  /\ (forall prog, Forall pop_to_general prog -> sp <= STACK_HEAD ->
        exists s', exec_seq prog s = Ok s'
          /\ reg s' !! 7%nat
             = Some (Z.min STACK_HEAD (sp + Z.of_nat (length prog)))
          /\ ram s' = ram s).
Proof.
  intros Hl Hm Hsp Hr Hv Hn.
  split.
  - assert (Hidx : py_index (Z.of_nat (length (ram s))) sp = Some (Z.to_nat sp)).
    { apply py_index_nonneg. rewrite Hm. lia. }
    pose proof (pop_exec s a b sp v n _ Hl Hsp Hidx Hv Hn) as Hpop.
    pose proof (py_index_lt 8 a n Hn) as Hn8.
    pose proof (popped_sp_lookup s sp v n Hl Hsp Hn8) as Hsp'.
    exists (popped s sp v n).
    split; [exact Hpop|]. split; [reflexivity|].
    split; [|split; [|split; [|split]]].
    + intros Hne. unfold popped. cbn [set_reg reg]. rewrite decide_False by done.
      destruct (sp <? STACK_HEAD).
      * rewrite list_lookup_insert_ne by done.
        apply list_lookup_insert_eq. by rewrite Hl.
      * apply list_lookup_insert_eq. by rewrite Hl.
    + intros Hne. rewrite Hsp'. unfold popped_sp. by rewrite decide_False.
    + intros Hne Hle. rewrite Hsp'. f_equal. by apply popped_sp_saturates.
    + intros j Hjn Hj7. unfold popped. cbn [set_reg reg].
      destruct (_ <? STACK_HEAD); by rewrite ?list_lookup_insert_ne.
    + done.
  - intros prog Hprog Hle.
    destruct (pops_saturate prog Hprog s sp Hl Hm Hsp ltac:(lia))
      as (s' & Hs' & _ & Hfin & Hram).
    by exists s'.
Qed.

(** ** Balanced PUSH/POP sequences *)

Lemma exec_seq_app p q s :
  exec_seq (p ++ q) s = (let* s1 := exec_seq p s in exec_seq q s1).
Proof.
  revert s. induction p as [|i p IH]; intros s; [done|].
  cbn [app exec_seq]. destruct (exec_stack i s); cbn [bind]; [apply IH|done..].
Qed.

Lemma push_Ok_inv s a b s1 :
  well_formed s -> _push a b s = Ok s1 ->
  exists sp k n v,
    reg s !! 7%nat = Some sp /\ reg s !! 4%nat = Some k /\ 0 <= k <= sp - 1
    /\ sp <= STACK_HEAD
    /\ py_index 8 a = Some n /\ <[7%nat := sp - 1]> (reg s) !! n = Some v
    /\ s1 = pushed s sp (Z.to_nat (sp - 1)) v.
Proof.
  intros [Hl Hm Hrn _ (sp & Hsp & Hsp244)] Hp.
  destruct (lookup_lt_is_Some_2 (reg s) 4) as [k Hk]; [rewrite Hl; lia|].
  pose proof (Forall_lookup_1 _ _ _ _ Hrn Hk) as Hk0.
  assert (H7 : py_index (Z.of_nat (length (reg s))) SP = Some 7%nat) by by rewrite Hl.
  assert (H4 : py_index (Z.of_nat (length (reg s))) PROGRAM_END = Some 4%nat) by by rewrite Hl.
  destruct (Z.le_gt_cases k (sp - 1)) as [Hle|Hgt].
  - assert (Hidx : py_index (Z.of_nat (length (ram s))) (sp - 1)
                   = Some (Z.to_nat (sp - 1))).
    { apply py_index_nonneg. rewrite Hm. unfold STACK_HEAD in *. lia. }
    destruct (py_index 8 a) as [n|] eqn:Hn.
    + destruct (push_within s a b sp k n _ Hl Hsp Hk Hle Hn Hidx) as (v & Hv & Hp').
      rewrite Hp' in Hp. injection Hp as <-.
      exists sp, k, n, v. repeat split; (done || lia).
    + exfalso. revert Hp. unfold _push.
      rewrite (getitem_intro _ _ _ _ H7 Hsp). cbn [bind].
      rewrite (getitem_intro _ _ _ _ H4 Hk). cbn [bind].
      replace (sp - 1 >=? k) with true by (symmetry; apply Z.geb_le; lia).
      rewrite (setitem_intro _ _ _ _ H7). cbn [bind set_reg reg].
      rewrite getitem_insert with (m := 7%nat) by done.
      rewrite decide_True by done. cbn [bind].
      unfold getitem at 1. rewrite length_insert, Hl.
      change (Z.of_nat 8) with 8. by rewrite Hn.
  - exfalso. revert Hp. unfold _push.
    rewrite (getitem_intro _ _ _ _ H7 Hsp). cbn [bind].
    rewrite (getitem_intro _ _ _ _ H4 Hk). cbn [bind].
    replace (sp - 1 >=? k) with false
      by (symmetry; rewrite Z.geb_leb; apply Z.leb_gt; lia).
    by destruct (trace _).
Qed.

Lemma pop_Ok_inv s a b s1 :
  well_formed s -> _pop a b s = Ok s1 ->
  exists sp v n,
    reg s !! 7%nat = Some sp /\ 0 <= sp <= STACK_HEAD
    /\ ram s !! Z.to_nat sp = Some v
    /\ py_index 8 a = Some n /\ s1 = popped s sp v n.
Proof.
  intros [Hl Hm Hrn _ (sp & Hsp & Hsp244)] Hp.
  pose proof (Forall_lookup_1 _ _ _ _ Hrn Hsp) as Hsp0.
  assert (Hidx : py_index (Z.of_nat (length (ram s))) sp = Some (Z.to_nat sp)).
  { apply py_index_nonneg. rewrite Hm. unfold STACK_HEAD in *. lia. }
  destruct (lookup_lt_is_Some_2 (ram s) (Z.to_nat sp)) as [v Hv].
  { rewrite Hm. unfold STACK_HEAD in *. lia. }
  destruct (py_index 8 a) as [n|] eqn:Hn.
  - rewrite (pop_exec s a b sp v n _ Hl Hsp Hidx Hv Hn) in Hp.
    injection Hp as <-. exists sp, v, n. repeat split; (done || lia).
  - exfalso. revert Hp. unfold _pop.
    assert (H7 : py_index (Z.of_nat (length (reg s))) SP = Some 7%nat) by by rewrite Hl.
    rewrite (getitem_intro _ _ _ _ H7 Hsp). cbn [bind].
    unfold ram_read. rewrite (getitem_intro _ _ _ _ Hidx Hv). cbn [bind].
    unfold setitem. rewrite Hl. change (Z.of_nat 8) with 8. by rewrite Hn.
Qed.

Lemma pushed_wf s sp k n v :
  well_formed s -> reg s !! 7%nat = Some sp -> 0 <= k <= sp - 1 ->
  sp <= STACK_HEAD -> <[7%nat := sp - 1]> (reg s) !! n = Some v ->
  well_formed (pushed s sp (Z.to_nat (sp - 1)) v).
Proof.
  intros [Hl Hm Hrn Hmn _] Hsp Hk Hsp244 Hv.
  assert (Hrn' : Forall (Z.le 0) (<[7%nat := sp - 1]> (reg s))).
  { apply Forall_insert; [done|lia]. }
  split; cbn [pushed set_ram set_reg reg ram].
  - by rewrite length_insert.
  - by rewrite length_insert.
  - done.
  - apply Forall_insert; [done|]. exact (Forall_lookup_1 _ _ _ _ Hrn' Hv).
  - exists (sp - 1). split; [|lia].
    apply list_lookup_insert_eq. rewrite Hl. lia.
Qed.

Lemma popped_wf s sp v n :
  well_formed s -> reg s !! 7%nat = Some sp -> 0 <= sp <= STACK_HEAD ->
  ram s !! Z.to_nat sp = Some v -> (n < 8)%nat -> n <> 7%nat ->
  well_formed (popped s sp v n).
Proof.
  intros Hwf Hsp Hr Hv Hn8 Hn7.
  pose proof (popped_sp_lookup s sp v n (wf_reg_len _ Hwf) Hsp Hn8) as Hsp'.
  rewrite popped_sp_saturates in Hsp' by (done || lia).
  destruct Hwf as [Hl Hm Hrn Hmn _].
  pose proof (Forall_lookup_1 _ _ _ _ Hmn Hv) as Hv0.
  split.
  - by rewrite popped_length.
  - done.
  - unfold popped. cbn [set_reg reg]. rewrite decide_False by done.
    destruct (sp <? STACK_HEAD); repeat apply Forall_insert; (done || lia).
  - done.
  - eexists. split; [exact Hsp'|lia].
Qed.

(** A PUSH, a sequence that restores the stack, and the POP that matches. *)
Lemma pair_run a b inner a' b' s s3 sp :
  restores inner -> py_index 8 a' <> Some 7%nat ->
  well_formed s -> reg s !! 7%nat = Some sp ->
  exec_seq (IPush a b :: inner ++ [IPop a' b']) s = Ok s3 ->
  exists n v n',
    py_index 8 a = Some n /\ <[7%nat := sp - 1]> (reg s) !! n = Some v
    /\ py_index 8 a' = Some n' /\ reg s3 !! n' = Some v
    /\ well_formed s3 /\ reg s3 !! 7%nat = Some sp
    /\ forall j, (Z.to_nat sp <= j)%nat -> ram s3 !! j = ram s !! j.
Proof.
  intros Hinner Ha' Hwf Hsp Hrun.
  cbn [exec_seq exec_stack] in Hrun.
  destruct (_push a b s) as [s1| |] eqn:Hpush; [|discriminate..].
  cbn [bind] in Hrun. rewrite exec_seq_app in Hrun.
  destruct (exec_seq inner s1) as [s2| |] eqn:Hin; [|discriminate..].
  cbn [bind exec_seq exec_stack] in Hrun.
  destruct (_pop a' b' s2) as [s3'| |] eqn:Hpop; [|discriminate..].
  cbn [bind] in Hrun. injection Hrun as ->.
  destruct (push_Ok_inv _ _ _ _ Hwf Hpush)
    as (sp0 & k & n & v & Hsp0 & Hk & Hkr & Hsp244 & Hn & Hv & ->).
  assert (sp0 = sp) as -> by congruence.
  pose proof (pushed_wf s sp k n v Hwf Hsp Hkr Hsp244 Hv) as Hwf1.
  assert (Hsp1 : reg (pushed s sp (Z.to_nat (sp - 1)) v) !! 7%nat = Some (sp - 1)).
  { cbn [pushed set_ram set_reg reg]. apply list_lookup_insert_eq.
    rewrite (wf_reg_len _ Hwf). lia. }
  destruct (Hinner _ _ _ Hwf1 Hsp1 Hin) as (Hwf2 & Hsp2 & Hram2).
  destruct (pop_Ok_inv _ _ _ _ Hwf2 Hpop)
    as (sp2 & v2 & n' & Hsp2' & Hr2 & Hv2 & Hn' & ->).
  assert (sp2 = sp - 1) as -> by congruence.
  assert (v2 = v) as ->.
  { rewrite Hram2 in Hv2 by lia. cbn [pushed set_ram ram] in Hv2.
    rewrite list_lookup_insert_eq in Hv2; [congruence|].
    rewrite (wf_ram_len _ Hwf). unfold STACK_HEAD in *. lia. }
  assert (Hn7 : n' <> 7%nat) by congruence.
  pose proof (py_index_lt 8 a' n' Hn') as Hn8.
  exists n, v, n'. do 3 (split; [done|]).
  split; [|split; [by apply popped_wf|split]].
  - unfold popped. cbn [set_reg reg]. rewrite decide_False by done.
    replace (sp - 1 <? STACK_HEAD) with true by (symmetry; apply Z.ltb_lt; lia).
    rewrite list_lookup_insert_ne by done.
    apply list_lookup_insert_eq. rewrite (wf_reg_len _ Hwf2). lia.
  - rewrite (popped_sp_lookup _ _ _ _ (wf_reg_len _ Hwf2) Hsp2 Hn8).
    rewrite popped_sp_saturates by (done || lia). f_equal. lia.
  - intros j Hj. change (ram (popped s2 (sp - 1) v n')) with (ram s2).
    rewrite Hram2 by lia. cbn [pushed set_ram ram].
    apply list_lookup_insert_ne. lia.
Qed.

Lemma balanced_restores prog :
  balanced prog -> Forall pop_avoids_sp prog -> restores prog.
Proof.
  induction 1 as [|a b a' b' inner rest _ IHinner _ IHrest]; intros Hav.
  - intros s s' sp Hwf Hsp [= <-]. done.
  - apply Forall_cons in Hav as [_ Hav].
    apply Forall_app in Hav as [Hin Hav].
    apply Forall_cons in Hav as [Ha' Hrest].
    intros s s' sp Hwf Hsp Hrun.
    assert (Heq : IPush a b :: inner ++ IPop a' b' :: rest
                  = (IPush a b :: inner ++ [IPop a' b']) ++ rest).
    { cbn [app]. by rewrite <- app_assoc. }
    rewrite Heq, exec_seq_app in Hrun.
    destruct (exec_seq (IPush a b :: inner ++ [IPop a' b']) s)
      as [s3| |] eqn:Hpair; [|discriminate..].
    cbn [bind] in Hrun.
    destruct (pair_run _ _ _ _ _ _ _ _ (IHinner Hin) Ha' Hwf Hsp Hpair)
      as (n & v & n' & _ & _ & _ & _ & Hwf3 & Hsp3 & Hram3).
    destruct (IHrest Hrest _ _ _ Hwf3 Hsp3 Hrun) as (Hwf' & Hsp' & Hram').
    do 2 (split; [done|]).
    intros j Hj. rewrite Hram' by done. by apply Hram3.
Qed.

(** C6, as stated, fails: on a fresh machine [PUSH R7; POP R0] stays clear
    of the program end, yet R0 receives 0xF3 while R7 held 0xF4 before the
    PUSH (SP is decremented before the operand register is read). *)
Lemma round_trip_fails_for_sp : ~ round_trip init 7 0 [] 0 0.
Proof.
  intros H. destruct (H 244 (set_ram (set_reg init [243; 0; 0; 0; 0; 0; 0; 244])
                              (<[243%nat := 243]> (ram init))))
    as [H0 _]; [reflexivity..|].
  discriminate H0.
Qed.

(** The other two ways a pair can fail to restore the machine: a POP into
    R7 overwrites SP, and an SP above the stack head is not incremented. *)
Example pop_into_sp_moves_sp :
  exists s', exec_seq [IPush 0 0; IPop 7 0] roomy = Ok s'
    /\ getitem (reg roomy) SP = Ok 244 /\ getitem (reg s') SP = Ok 43.
Proof. eexists. split; [reflexivity|]. split; reflexivity. Qed.

Example sp_above_head_not_restored :
  let s := set_reg init [42; 0; 0; 0; 6; 0; 0; 250] in
  exists s', exec_seq [IPush 0 0; IPop 1 0] s = Ok s'
    /\ getitem (reg s) SP = Ok 250 /\ getitem (reg s') SP = Ok 249.
Proof. eexists. split; [reflexivity|]. split; reflexivity. Qed.

(** Why no cell may be negative: with -300 in register 4 the boundary test
    lets SP run below 0, Python's subscripts wrap, and the 256th inner PUSH
    lands on the cell of the outer one. *)
Example negative_program_end_wraps :
  let s := set_reg init [1; 2; 0; 0; -300; 0; 0; 1] in
  let inner := replicate 256 (IPush 1 0) ++ replicate 256 (IPop 2 0) in
  exists s', exec_seq (IPush 0 0 :: inner ++ [IPop 3 0]) s = Ok s'
    /\ getitem (reg s) 0 = Ok 1 /\ getitem (reg s') 3 = Ok 2
    /\ getitem (reg s') SP = getitem (reg s) SP.
Proof.
  eexists. split; [vm_compute; reflexivity|].
  split; [reflexivity|]. split; reflexivity.
Qed.

(** C6 (amended): in a well-formed state, for a PUSH from a register other
    than SP, a balanced inner sequence and the matching POP, none of whose
    POPs targets SP, the round trip holds whenever the sequence runs to its
    end. *)
Theorem balanced_round_trip (s : cpu) (a b a' b' : Z)
    (inner : list stack_instr) :
  well_formed s -> balanced inner ->
  Forall pop_avoids_sp (inner ++ [IPop a' b']) ->
  py_index 8 a <> Some 7%nat ->
  round_trip s a b inner a' b'.
Proof.
  intros Hwf Hbal Hav Ha x s' Hx Hrun.
  apply Forall_app in Hav as [Hin Hav]. apply Forall_cons in Hav as [Ha' _].
  destruct (wf_sp _ Hwf) as (sp & Hsp & _).
  destruct (pair_run _ _ _ _ _ _ _ _ (balanced_restores _ Hbal Hin) Ha' Hwf Hsp Hrun)
    as (n & v & n' & Hn & Hv & Hn' & Hv' & Hwf' & Hsp' & _).
  pose proof (wf_reg_len _ Hwf) as Hl. pose proof (wf_reg_len _ Hwf') as Hl'.
  assert (Hn7 : n <> 7%nat) by congruence.
  rewrite list_lookup_insert_ne in Hv by done.
  assert (x = v) as ->.
  { destruct (getitem_inv _ _ _ Hx) as (m & Hm & Hmx).
    rewrite Hl in Hm. change (Z.of_nat 8) with 8 in Hm. congruence. }
  split.
  - apply getitem_intro with n'; [by rewrite Hl'|done].
  - transitivity (Ok (A := Z) sp); [|symmetry]; by apply getitem_reg.
Qed.

Lemma roomy_well_formed : well_formed roomy.
Proof.
  split.
  - reflexivity.
  - reflexivity.
  - cbn. repeat constructor; lia.
  - change (ram roomy) with (replicate 256 0). by apply Forall_replicate.
  - exists 244. split; [reflexivity|]. unfold STACK_HEAD. lia.
Defined.

(** ** The dispatch table *)

Lemma perform_op_table ir h :
  perform_op !! ir = Some h <-> In (ir, h) dispatch_table.
Proof.
  unfold perform_op. cbv zeta. split.
  - intros H.
    repeat (rewrite lookup_insert in H; destruct (decide _) as [<-|_];
            [injection H as <-; cbn [In dispatch_table];
             solve [repeat (first [left; reflexivity | right])]|]).
    by rewrite lookup_empty in H.
  - cbn [In dispatch_table]. intros H.
    repeat (destruct H as [[= <- <-]|H]; [reflexivity|]). done.
Qed.

Lemma perform_op_registered ir :
  is_Some (perform_op !! ir) <-> In ir registered_opcodes.
Proof.
  unfold registered_opcodes. rewrite <- list_elem_of_In, list_elem_of_fmap. split.
  - intros [h Hh%perform_op_table]. exists (ir, h).
    split; [done|]. by apply list_elem_of_In.
  - intros ([ir' h] & -> & Hh%list_elem_of_In). exists h.
    by apply perform_op_table.
Qed.

(** ** Program counter *)

Ltac ok_inv H :=
  repeat match type of H with
    | bind ?m _ = Ok _ =>
        let E := fresh "E" in
        destruct m eqn:E; cbn [bind] in H; [|discriminate H..]
    | (if ?c then _ else _) = Ok _ =>
        let E := fresh "E" in destruct c eqn:E
    | Ok _ = Ok _ => injection H as H
    | Raise _ = Ok _ => discriminate H
    | SysExit _ _ = Ok _ => discriminate H
    | _shutdown _ _ = Ok _ => discriminate H
    end.

Lemma reg_binop_pc f a b s s' : reg_binop f a b s = Ok s' -> pc s' = pc s.
Proof. unfold reg_binop. intros H. ok_inv H. by subst. Qed.

Lemma alu_pc op : keeps_pc (alu op).
Proof.
  intros a b s s' H. unfold alu in H.
  destruct (alu_dispatch op a b s) as [s1| |] eqn:Hd; [|discriminate..].
  cbn [bind] in H. ok_inv H. subst s'. cbn [set_reg pc].
  unfold alu_dispatch in Hd.
  repeat match type of Hd with
    | (if ?c then _ else _) = Ok _ => destruct c
    | reg_binop _ _ _ _ = Ok _ => by apply reg_binop_pc in Hd
    end.
  all: ok_inv Hd; by subst.
Qed.

Lemma ldi_pc : keeps_pc _ldi.
Proof. intros a b s s' H. unfold _ldi in H. ok_inv H. by subst. Qed.

Lemma prn_pc : keeps_pc _prn.
Proof. intros a b s s' H. unfold _prn in H. ok_inv H. by subst. Qed.

Lemma hlt_pc : keeps_pc _hlt.
Proof. intros a b s s' H. unfold _hlt in H. ok_inv H. by subst. Qed.

Lemma pop_pc : keeps_pc _pop.
Proof. intros a b s s' H. unfold _pop in H. ok_inv H; by subst. Qed.

Lemma push_pc : keeps_pc _push.
Proof.
  intros a b s s' H. unfold _push, ram_write in H. ok_inv H. by subst.
Qed.

Lemma trace_inv s s1 :
  trace s = Ok s1 -> exists e, s1 = print e s.
Proof. unfold trace. intros H. ok_inv H. subst. eauto. Qed.

Lemma to_next_pc ir s :
  pc (_to_next_instruction ir s)
  = if sets_pc ir then pc s else pc s + (Z.shiftr ir NUM_OPERANDS + 1).
Proof.
  unfold _to_next_instruction, sets_pc, truthy, OP_SETS_INST.
  rewrite Z.testbit_odd. change ONE_BIT with (Z.ones 1).
  rewrite Z.land_ones by lia. change (2 ^ 1) with 2.
  rewrite <- Z.bit0_mod, Z.bit0_odd.
  by destruct (Z.odd (Z.shiftr ir 4)).
Qed.

(** What the packed op-code says about each registered instruction: either
    bit 4 is clear, [ir >> 6] is the two-bit operand count and the handler
    leaves [pc] alone, or bit 4 is set and the instruction is a jump. *)
Lemma opcode_bits ir h :
  In (ir, h) dispatch_table ->
  (sets_pc ir = false /\ Z.shiftr ir NUM_OPERANDS = operand_count ir
   /\ keeps_pc h)
  \/ (sets_pc ir = true /\ In (ir, h) jump_table).
Proof.
  cbn [In dispatch_table]. intros H.
  repeat (destruct H as [[= <- <-]|H];
          [first [ left; split; [reflexivity|]; split; [reflexivity|];
                   first [ exact ldi_pc | exact prn_pc | exact hlt_pc
                         | exact push_pc | exact pop_pc | exact (alu_pc _) ]
                 | right; split; [reflexivity|]; cbn [In jump_table];
                   solve [repeat (first [left; reflexivity | right])] ]|]).
  done.
Qed.

(** C4: after an instruction that returned to the loop, [pc] is fixed by
    the op-code and the handler: with bit 4 clear it has advanced by one
    plus the operand count of bits 7-6; bit 4 is set only for JMP, JEQ and
    JNE; JMP leaves [reg[op_a]] in [pc], JEQ does so when the Equal flag is
    set and otherwise leaves [pc + 2], and JNE the other way round. *)
Theorem pc_after_instruction (s s' : cpu) (ir a b : Z) :
  fetch s = Ok (ir, a, b) -> run_body s = Ok s' ->
  (sets_pc ir = false -> pc s' = pc s + 1 + operand_count ir)
  /\ (sets_pc ir = true -> ir = JMP \/ ir = JEQ \/ ir = JNE)
  /\ (ir = JMP -> getitem (reg s) a = Ok (pc s'))
  /\ (ir = JEQ -> if flag_set EQ s then getitem (reg s) a = Ok (pc s')
                  else pc s' = pc s + 2)
  /\ (ir = JNE -> if flag_set EQ s then pc s' = pc s + 2
                  else getitem (reg s) a = Ok (pc s')).
Proof.
  intros Hf Hrun. unfold run_body in Hrun. rewrite Hf in Hrun.
  cbn [bind] in Hrun.
  destruct (perform_op !! ir) as [h|] eqn:Hh; [|discriminate].
  destruct (trace s) as [s1| |] eqn:Ht; [|discriminate..]. cbn [bind] in Hrun.
  destruct (h a b s1) as [s2| |] eqn:Hx; [|discriminate..]. cbn [bind] in Hrun.
  injection Hrun as <-. rewrite to_next_pc.
  destruct (trace_inv _ _ Ht) as [e ->].
  apply perform_op_table, opcode_bits in Hh.
  destruct Hh as [(Hs & Hsh & Hk)|(Hs & Hj)].
  - rewrite Hs, Hsh, (Hk _ _ _ _ Hx). cbn [print pc].
    split; [intros _; lia|]. split; [discriminate|].
    repeat split; intros ->; discriminate Hs.
  - rewrite Hs. split; [discriminate|].
    cbn [In jump_table] in Hj.
    destruct Hj as [[= <- <-]|[[= <- <-]|[[= <- <-]|[]]]].
    + split; [auto|]. split; [|split; discriminate].
      intros _. unfold _jmp in Hx. ok_inv Hx. by subst.
    + split; [auto|]. split; [discriminate|]. split; [|discriminate].
      intros _. unfold _jeq in Hx. change (fl (print e s)) with (fl s) in Hx.
      fold (flag_set EQ s) in Hx. destruct (flag_set EQ s).
      * ok_inv Hx. by subst.
      * ok_inv Hx. by subst.
    + split; [auto|]. split; [discriminate|]. split; [discriminate|].
      intros _. unfold _jne in Hx. change (fl (print e s)) with (fl s) in Hx.
      fold (flag_set EQ s) in Hx. destruct (flag_set EQ s); cbn [negb] in Hx.
      * ok_inv Hx. by subst.
      * ok_inv Hx. by subst.
Qed.

(** ** Unknown op-codes and HLT *)

(** C5: the dispatch table holds exactly the seventeen op-codes LDI, PRN,
    HLT, PUSH, POP, JMP, JEQ, JNE, ADD, MUL, CMP, AND, OR, XOR, NOT, SHL and
    SHR.  When the fetched op-code is not one of them, the loop prints it,
    prints the shutdown notice and the process exits with status 1; when it
    is HLT, the loop ends and the process exits with status 0. *)
Theorem unknown_exits_1_hlt_exits_0 :
  (forall ir, is_Some (perform_op !! ir) <-> In ir registered_opcodes)
  /\ registered_opcodes
     = [LDI; PRN; HLT; PUSH; POP; JMP; JEQ; JNE;
        ADD; MUL; CMP; AND; OR; XOR; NOT; SHL; SHR]
  /\ length registered_opcodes = 17%nat
  /\ NoDup registered_opcodes
  /\ (forall s ir a b fuel,
        is_running s = true -> fetch s = Ok (ir, a, b) ->
        ~ In ir registered_opcodes ->
        run_loop (S fuel) s
        = Some (SysExit UNKNOWN_INSTRUCTION (unknown_exit s ir))
        /\ stdout (unknown_exit s ir)
           = stdout s ++ [PrintUnknown ir; PrintShuttingDown])
  /\ (forall s a b fuel,
        is_running s = true -> length (reg s) = 8%nat ->
        fetch s = Ok (HLT, a, b) ->
        run_loop (S (S fuel)) s = Some (SysExit DONE (halted s a b))).
Proof.
  split; [apply perform_op_registered|]. split; [reflexivity|].
  split; [reflexivity|]. split.
  { apply (bool_decide_unpack _). by vm_compute. }
  split.
  - intros s ir a b fuel Hrun Hf Hnot. split.
    + cbn [run_loop]. rewrite Hrun. unfold run_body. rewrite Hf. cbn [bind].
      destruct (perform_op !! ir) as [h|] eqn:Hh; [|done].
      exfalso. apply Hnot, perform_op_registered. eauto.
    + cbn. by rewrite <- app_assoc.
  - intros s a b fuel Hrun Hl Hf.
    cbn [run_loop]. rewrite Hrun. unfold run_body. rewrite Hf. cbn [bind].
    replace (perform_op !! HLT) with (Some _hlt) by reflexivity.
    rewrite (trace_ok s HLT a b Hl Hf). cbn [bind _hlt]. reflexivity.
Qed.

(** ** Fetch *)

Lemma getitem_cases (l : list Z) (i : Z) :
  (exists v, getitem l i = Ok v) \/ getitem l i = Raise IndexError.
Proof.
  unfold getitem. destruct (py_index _ i) as [n|]; [|by right].
  destruct (l !! n); [left; eauto|by right].
Qed.

(** Once the loop, entered in [s0], begins an iteration in a running state
    whose pass through the body raises, the whole loop ends with that
    exception. *)
Lemma loop_dies (s0 s : cpu) (e : exn) :
  loop_reaches s0 s -> is_running s = true -> run_body s = Raise e ->
  exists n, forall fuel, (n <= fuel)%nat -> run_loop fuel s0 = Some (Raise e).
Proof.
  induction 1 as [s|s0 s1 s Hrun0 Hbody _ IH]; intros Hrun Hraise.
  - exists 1%nat. intros [|fuel] Hf; [lia|].
    cbn [run_loop]. by rewrite Hrun, Hraise.
  - destruct (IH Hrun Hraise) as [n Hn]. exists (S n).
    intros [|fuel] Hf; [lia|].
    cbn [run_loop]. rewrite Hrun0, Hbody. apply Hn. lia.
Qed.

(** C9 (amended): on the 256-cell memory, for [0 <= pc <= 253] the fetch
    returns the three cells at [pc], [pc + 1] and [pc + 2], whatever the
    op-code is; for [pc >= 254] it raises [IndexError], so does the pass
    through the loop body, and a loop that begins an iteration there while
    running ends with that [IndexError], from whatever state it was
    entered: no handler runs and no exit status is produced. *)
Theorem fetch_within_memory (s : cpu) :
  length (ram s) = 256%nat ->
  (0 <= pc s <= 253 ->
     exists ir a b, fetch s = Ok (ir, a, b)
       /\ ram s !! Z.to_nat (pc s) = Some ir
       /\ ram s !! Z.to_nat (pc s + 1) = Some a
       /\ ram s !! Z.to_nat (pc s + 2) = Some b)
  /\ (254 <= pc s ->
        fetch s = Raise IndexError
        /\ run_body s = Raise IndexError
        /\ (is_running s = true ->
            (forall fuel, run_loop (S fuel) s = Some (Raise IndexError))
            /\ (forall s0, loop_reaches s0 s ->
                  exists n, forall fuel, (n <= fuel)%nat ->
                    run_loop fuel s0 = Some (Raise IndexError)))).
Proof.
  intros Hm. split.
  - intros Hpc. unfold fetch, ram_read.
    rewrite !getitem_nonneg by (rewrite Hm; lia).
    destruct (lookup_lt_is_Some_2 (ram s) (Z.to_nat (pc s))) as [x0 ->];
      [rewrite Hm; lia|].
    destruct (lookup_lt_is_Some_2 (ram s) (Z.to_nat (pc s + 1))) as [x1 ->];
      [rewrite Hm; lia|].
    destruct (lookup_lt_is_Some_2 (ram s) (Z.to_nat (pc s + 2))) as [x2 ->];
      [rewrite Hm; lia|].
    exists x0, x1, x2. by cbn [bind].
  - intros Hpc.
    assert (Hf : fetch s = Raise IndexError).
    { unfold fetch, ram_read.
      rewrite (getitem_past_end (ram s) (pc s + 2)) by (rewrite Hm; lia).
      destruct (getitem_cases (ram s) (pc s)) as [[x0 ->]| ->]; [|done].
      cbn [bind].
      destruct (getitem_cases (ram s) (pc s + 1)) as [[x1 ->]| ->]; done. }
    assert (Hb : run_body s = Raise IndexError).
    { unfold run_body. by rewrite Hf. }
    split; [exact Hf|]. split; [exact Hb|].
    intros Hrun. split.
    + intros fuel. cbn [run_loop]. by rewrite Hrun, Hb.
    + intros s0 Hreach. exact (loop_dies s0 s IndexError Hreach Hrun Hb).
Qed.

(** * Further properties of the code *)

(** ** Shape of what [alu] returns *)

Lemma setitem_cases (l : list Z) (i v : Z) :
  (exists n, py_index (Z.of_nat (length l)) i = Some n
             /\ setitem l i v = Ok (<[n := v]> l))
  \/ (py_index (Z.of_nat (length l)) i = None
      /\ setitem l i v = Raise IndexError).
Proof.
  unfold setitem. destruct (py_index _ i) as [n|]; [left; eauto|by right].
Qed.

Lemma reg_binop_inv f a b s s1 :
  reg_binop f a b s = Ok s1 ->
  exists n x y v,
    py_index (Z.of_nat (length (reg s))) a = Some n
    /\ getitem (reg s) a = Ok x /\ getitem (reg s) b = Ok y /\ f x y = Ok v
    /\ s1 = set_reg s (<[n := v]> (reg s)).
Proof.
  unfold reg_binop. intros H.
  destruct (getitem (reg s) a) as [x| |] eqn:Ha; [|discriminate H..].
  destruct (getitem (reg s) b) as [y| |] eqn:Hb; [|discriminate H..].
  cbn [bind] in H. destruct (f x y) as [v| |] eqn:Hf; [|discriminate H..].
  cbn [bind] in H.
  destruct (setitem_cases (reg s) a v) as [(n & Hn & Hs)|[_ Hs]];
    rewrite Hs in H; [|discriminate H].
  injection H as <-. by exists n, x, y, v.
Qed.

Lemma alu_dispatch_shape op a b s s1 :
  alu_dispatch op a b s = Ok s1 ->
  ram s1 = ram s /\ pc s1 = pc s /\ is_running s1 = is_running s
  /\ stdout s1 = stdout s
  /\ (op <> "CMP"%string -> fl s1 = fl s)
  /\ (reg s1 = reg s
      \/ exists n v, py_index (Z.of_nat (length (reg s))) a = Some n
                     /\ reg s1 = <[n := v]> (reg s)).
Proof.
  unfold alu_dispatch. intros H.
  repeat match type of H with
    | (if String.eqb op "CMP" then _ else _) = Ok _ =>
        destruct (String.eqb_spec op "CMP") as [Hcmp|Hcmp]
    | (if String.eqb op _ then _ else _) = Ok _ =>
        destruct (String.eqb op _)
    | reg_binop _ _ _ _ = Ok _ =>
        apply reg_binop_inv in H as (n & x & y & v & Hn & _ & _ & _ & ->);
        repeat split; try done; right; by exists n, v
    end.
  - ok_inv H; subst s1; repeat split; (done || by left).
  - destruct (getitem (reg s) a) as [x| |] eqn:Ha; [|discriminate H..].
    cbn [bind] in H.
    destruct (setitem_cases (reg s) a (Z.lnot x)) as [(n & Hn & Hs)|[_ Hs]];
      rewrite Hs in H; [|discriminate H].
    injection H as <-. repeat split; try done. right. by exists n, (Z.lnot x).
  - discriminate.
Qed.

Lemma alu_shape op a b s s' :
  alu op a b s = Ok s' ->
  exists n v,
    py_index (Z.of_nat (length (reg s))) a = Some n
    /\ reg s' = <[n := v]> (reg s) /\ is_byte v
    /\ getitem (reg s') a = Ok v
    /\ ram s' = ram s /\ pc s' = pc s /\ is_running s' = is_running s
    /\ stdout s' = stdout s
    /\ (op <> "CMP"%string -> fl s' = fl s).
Proof.
  unfold alu. intros H.
  destruct (alu_dispatch op a b s) as [s1| |] eqn:Hd; [|discriminate H..].
  cbn [bind] in H.
  destruct (alu_dispatch_shape _ _ _ _ _ Hd) as (Hram & Hpc & Hrun & Hout & Hfl & Hreg).
  destruct (getitem (reg s1) a) as [x| |] eqn:Hx; [|discriminate H..].
  cbn [bind] in H.
  destruct (setitem_cases (reg s1) a (Z.land x ONE_BYTE)) as [(n & Hn & Hs)|[_ Hs]];
    rewrite Hs in H; [|discriminate H].
  injection H as <-. cbn [set_reg reg ram pc fl is_running stdout].
  exists n, (Z.land x ONE_BYTE).
  assert (Hlen : length (reg s1) = length (reg s)).
  { destruct Hreg as [->|(m & w & _ & ->)]; by rewrite ?length_insert. }
  split; [by rewrite <- Hlen|]. split.
  { destruct Hreg as [->|(m & w & Hm & ->)]; [done|].
    rewrite Hlen in Hn. assert (m = n) as -> by congruence.
    apply list_insert_insert_eq. }
  split; [apply clamp_range|]. split; [|done].
  apply getitem_intro with n; [by rewrite length_insert|].
  apply list_lookup_insert_eq. by eapply py_index_lt.
Qed.

(** X1: a returning [alu] call changes at most [reg[reg_a]] and, for CMP
    only, [fl]: memory, the program counter, the running flag, the output
    and every other register are as before. *)
Theorem alu_frame (op : string) (a b : Z) (s s' : cpu) :
  alu op a b s = Ok s' ->
  ram s' = ram s /\ pc s' = pc s /\ is_running s' = is_running s
  /\ stdout s' = stdout s
  /\ length (reg s') = length (reg s)
  /\ (forall j, py_index (Z.of_nat (length (reg s))) a <> Some j ->
        reg s' !! j = reg s !! j)
  /\ (op <> "CMP"%string -> fl s' = fl s).
Proof.
  intros H.
  destruct (alu_shape _ _ _ _ _ H)
    as (n & v & Hn & Hreg & _ & _ & Hram & Hpc & Hrun & Hout & Hfl).
  repeat split; try done.
  - by rewrite Hreg, length_insert.
  - intros j Hj. rewrite Hreg. apply list_lookup_insert_ne. congruence.
Qed.

(** ** What each ALU operation computes *)

Lemma lnot_mod_256 (x : Z) : Z.lnot x mod 256 = (255 - x) mod 256.
Proof.
  unfold Z.lnot. replace (255 - x) with (Z.pred (- x) + 1 * 256) by lia.
  by rewrite Z.mod_add.
Qed.

(** X2: with [x] and [y] in the two operand registers, each arithmetic or
    bitwise operation that returns leaves in [reg[reg_a]] the low byte of
    the mathematical result: sum, product, bitwise and/or/xor, [255 - x]
    for NOT, [x * 2^y] for SHL and the floor of [x / 2^y] for SHR.  All of
    them return, the shifts for a count that is not negative and SHL, for
    an operand other than zero, when the host can build the result. *)
Theorem alu_computes (s : cpu) (a b x y : Z) :
  getitem (reg s) a = Ok x -> getitem (reg s) b = Ok y ->
  (exists s', alu "ADD" a b s = Ok s'
              /\ getitem (reg s') a = Ok ((x + y) mod 256))
  /\ (exists s', alu "MUL" a b s = Ok s'
                 /\ getitem (reg s') a = Ok ((x * y) mod 256))
  /\ (exists s', alu "AND" a b s = Ok s'
                 /\ getitem (reg s') a = Ok (Z.land x y mod 256))
  /\ (exists s', alu "OR" a b s = Ok s'
                 /\ getitem (reg s') a = Ok (Z.lor x y mod 256))
  /\ (exists s', alu "XOR" a b s = Ok s'
                 /\ getitem (reg s') a = Ok (Z.lxor x y mod 256))
  /\ (exists s', alu "NOT" a b s = Ok s'
                 /\ getitem (reg s') a = Ok ((255 - x) mod 256))
  /\ (0 <= y -> x = 0 \/ shl_fault x y = None ->
      exists s', alu "SHL" a b s = Ok s'
                 /\ getitem (reg s') a = Ok ((x * 2 ^ y) mod 256))
  /\ (0 <= y -> exists s', alu "SHR" a b s = Ok s'
                 /\ getitem (reg s') a = Ok ((x / 2 ^ y) mod 256)).
Proof.
  intros Ha Hb.
  repeat split.
  - rewrite <- clamp_mod.
    exact (alu_binop_exec (fun x y => Ok (x + y)) "ADD" a b s x y _
             eq_refl Ha Hb eq_refl).
  - rewrite <- clamp_mod.
    exact (alu_binop_exec (fun x y => Ok (x * y)) "MUL" a b s x y _
             eq_refl Ha Hb eq_refl).
  - rewrite <- clamp_mod.
    exact (alu_binop_exec (fun x y => Ok (Z.land x y)) "AND" a b s x y _
             eq_refl Ha Hb eq_refl).
  - rewrite <- clamp_mod.
    exact (alu_binop_exec (fun x y => Ok (Z.lor x y)) "OR" a b s x y _
             eq_refl Ha Hb eq_refl).
  - rewrite <- clamp_mod.
    exact (alu_binop_exec (fun x y => Ok (Z.lxor x y)) "XOR" a b s x y _
             eq_refl Ha Hb eq_refl).
  - rewrite <- lnot_mod_256, <- clamp_mod. exact (alu_not_exec a b s x Ha).
  - intros Hy Hhost. rewrite <- Z.shiftl_mul_pow2, <- clamp_mod by done.
    apply (alu_binop_exec py_shl "SHL" a b s x y _ eq_refl Ha Hb).
    by apply py_shl_returns.
  - intros Hy. rewrite <- Z.shiftr_div_pow2, <- clamp_mod by done.
    apply (alu_binop_exec py_shr "SHR" a b s x y _ eq_refl Ha Hb).
    unfold py_shr. replace (y <? 0) with false; [done|].
    symmetry. apply Z.ltb_ge. lia.
Qed.

(** X3: an operation tag outside the nine that [alu] knows raises the
    "Unsupported ALU operation" exception, whatever the operands and the
    state are (SUB, DIV, MOD, INC and DEC have op-codes but no branch). *)
Theorem alu_unsupported (op : string) (a b : Z) (s : cpu) :
  ~ In op alu_tags -> alu op a b s = Raise UnsupportedALU.
Proof.
  intros Hop. unfold alu, alu_dispatch.
  repeat match goal with
    | |- context [String.eqb op ?t] =>
        destruct (String.eqb_spec op t) as [->|_];
        [exfalso; apply Hop; cbn; auto 10|]
    end.
  reflexivity.
Qed.

(** X4: the edges of the two shifts.  A negative count in [reg[reg_b]]
    makes SHL and SHR raise [ValueError]; a left shift of a value other
    than zero that the host cannot build raises the host's exception
    ([MemoryError] or [OverflowError]) and a left shift of zero returns on
    every host; a count of 8 or more makes a returning SHL leave 0, and
    makes SHR, which returns for every such count, leave 0 when
    [reg[reg_a]] holds a byte. *)
Theorem shift_edges (s : cpu) (a b x y : Z) :
  getitem (reg s) a = Ok x -> getitem (reg s) b = Ok y ->
  (y < 0 -> alu "SHL" a b s = Raise ValueError
            /\ alu "SHR" a b s = Raise ValueError)
  /\ (0 <= y -> x <> 0 -> forall f, shl_fault x y = Some f ->
      alu "SHL" a b s = Raise (fault_exn f))
  /\ (0 <= y -> x = 0 -> exists s', alu "SHL" a b s = Ok s'
                                    /\ getitem (reg s') a = Ok 0)
  /\ (8 <= y -> shl_fault x y = None ->
      exists s', alu "SHL" a b s = Ok s' /\ getitem (reg s') a = Ok 0)
  /\ (8 <= y -> is_byte x -> exists s', alu "SHR" a b s = Ok s'
                                        /\ getitem (reg s') a = Ok 0).
Proof.
  intros Ha Hb. split; [|split; [|split; [|split]]].
  - intros Hy. apply Z.ltb_lt in Hy.
    unfold alu, alu_dispatch, reg_binop.
    cbn [String.eqb Ascii.eqb Bool.eqb]. rewrite Ha, Hb. cbn [bind].
    unfold py_shl, py_shr. by rewrite Hy.
  - intros Hy Hx f Hf.
    unfold alu, alu_dispatch, reg_binop.
    cbn [String.eqb Ascii.eqb Bool.eqb]. rewrite Ha, Hb. cbn [bind].
    by rewrite (py_shl_fails x y f Hy Hx Hf).
  - intros Hy ->.
    destruct (alu_binop_exec py_shl "SHL" a b s 0 y (Z.shiftl 0 y)
                eq_refl Ha Hb) as (s' & Hs' & Hv).
    { apply py_shl_returns; [done|by left]. }
    exists s'. split; [done|]. by rewrite Hv, Z.shiftl_0_l.
  - intros Hy Hhost.
    destruct (alu_binop_exec py_shl "SHL" a b s x y (Z.shiftl x y)
                eq_refl Ha Hb) as (s' & Hs' & Hv).
    { apply py_shl_returns; [lia|by right]. }
    exists s'. split; [done|]. rewrite Hv. f_equal.
    rewrite clamp_mod, Z.shiftl_mul_pow2 by lia.
    replace y with ((y - 8) + 8) by lia. rewrite Z.pow_add_r by lia.
    change (2 ^ 8) with 256. rewrite Z.mul_assoc. apply Z_mod_mult.
  - intros Hy [Hx0 Hx255].
    destruct (alu_binop_exec py_shr "SHR" a b s x y (Z.shiftr x y)
                eq_refl Ha Hb) as (s' & Hs' & Hv).
    { unfold py_shr. replace (y <? 0) with false; [done|].
      symmetry. apply Z.ltb_ge. lia. }
    exists s'. split; [done|]. rewrite Hv. f_equal.
    rewrite Z.shiftr_div_pow2 by lia.
    assert (256 <= 2 ^ y).
    { change 256 with (2 ^ 8). apply Z.pow_le_mono_r; lia. }
    rewrite Z.div_small by lia. reflexivity.
Qed.

(** X5: NOT is its own inverse on bytes: applied to a register holding a
    byte [x] it leaves [255 - x], and applied again it gives back the
    register file it started from. *)
Theorem not_twice (s : cpu) (a b b' x : Z) :
  getitem (reg s) a = Ok x -> is_byte x ->
  exists s1 s2,
    alu "NOT" a b s = Ok s1 /\ getitem (reg s1) a = Ok (255 - x)
    /\ alu "NOT" a b' s1 = Ok s2 /\ reg s2 = reg s.
Proof.
  intros Ha Hx.
  destruct (alu_not_exec a b s x Ha) as (s1 & Hs1 & Hv1).
  assert (Hc : Z.land (Z.lnot x) ONE_BYTE = 255 - x).
  { rewrite clamp_mod, lnot_mod_256. apply Z.mod_small.
    unfold is_byte in Hx. lia. }
  rewrite Hc in Hv1.
  destruct (alu_not_exec a b' s1 (255 - x) Hv1) as (s2 & Hs2 & Hv2).
  assert (Hc2 : Z.land (Z.lnot (255 - x)) ONE_BYTE = x).
  { rewrite clamp_mod, lnot_mod_256. replace (255 - (255 - x)) with x by lia.
    apply Z.mod_small. unfold is_byte in Hx. lia. }
  rewrite Hc2 in Hv2.
  exists s1, s2. do 3 (split; [done|]).
  destruct (alu_shape _ _ _ _ _ Hs1) as (n & v1 & Hn & Hr1 & _ & Hg1 & _).
  destruct (alu_shape _ _ _ _ _ Hs2) as (n2 & v2 & Hn2 & Hr2 & _ & Hg2 & _).
  rewrite Hr1, length_insert in Hn2. assert (n2 = n) as -> by congruence.
  assert (v2 = x) as -> by congruence.
  rewrite Hr2, Hr1, list_insert_insert_eq.
  apply list_insert_id.
  destruct (getitem_inv _ _ _ Ha) as (m & Hm & Hmx). congruence.
Qed.

(** ** Loading *)

Lemma load_loop_spec (values : list Z) (address : Z) (m : list Z) :
  0 <= address ->
  address + Z.of_nat (length values) <= Z.of_nat (length m) ->
  exists m', load_loop values address m
             = (m', Some (address + Z.of_nat (length values)))
    /\ length m' = length m
    /\ (forall i v, values !! i = Some v ->
          m' !! (Z.to_nat address + i)%nat = Some v)
    /\ (forall j, (j < Z.to_nat address
                   \/ Z.to_nat address + length values <= j)%nat ->
          m' !! j = m !! j).
Proof.
  revert address m. induction values as [|v values IH]; intros address m H0 Hfit.
  - exists m. cbn. split; [do 2 f_equal; lia|]. split; [done|].
    split; [intros i w Hw; by rewrite lookup_nil in Hw|done].
  - cbn [load_loop length] in *.
    rewrite (setitem_intro m address v (Z.to_nat address))
      by (apply py_index_nonneg; lia).
    destruct (IH (address + 1) (<[Z.to_nat address := v]> m))
      as (m' & Hm' & Hl & Hin & Hout).
    + lia.
    + rewrite length_insert. lia.
    + exists m'. rewrite Hm'. split; [do 2 f_equal; lia|].
      split; [by rewrite Hl, length_insert|]. split.
      * intros [|i] w Hw.
        -- cbn in Hw. injection Hw as ->. rewrite Hout by lia.
           rewrite Nat.add_0_r. apply list_lookup_insert_eq. lia.
        -- cbn in Hw. replace (Z.to_nat address + S i)%nat
             with (Z.to_nat (address + 1) + i)%nat by lia.
           by apply Hin.
      * intros j Hj. rewrite Hout by lia.
        apply list_lookup_insert_ne. lia.
Qed.

Lemma py_index_nonneg_inv (len i : Z) (n : nat) :
  0 <= i -> py_index len i = Some n -> i < len /\ n = Z.to_nat i.
Proof.
  intros Hi. unfold py_index.
  destruct (Z.leb_spec 0 i); [|lia]. destruct (Z.ltb_spec i len); cbn [andb].
  - by intros [= <-].
  - destruct (Z.ltb_spec i 0); [lia|]. by rewrite andb_false_r.
Qed.

Lemma load_loop_overflow (values : list Z) (address : Z) (m : list Z) :
  0 <= address <= Z.of_nat (length m) ->
  Z.of_nat (length m) < address + Z.of_nat (length values) ->
  exists m', load_loop values address m = (m', None)
             /\ length m' = length m.
Proof.
  revert address m. induction values as [|v values IH]; intros address m H0 Hfit.
  - cbn in Hfit. lia.
  - cbn [load_loop length] in *.
    destruct (setitem_cases m address v) as [(n & Hn & ->)|[Hn ->]].
    + apply py_index_nonneg_inv in Hn as [Hlt ->]; [|lia].
      destruct (IH (address + 1) (<[Z.to_nat address := v]> m))
        as (m' & Hm' & Hl).
      * rewrite length_insert. lia.
      * rewrite length_insert. lia.
      * exists m'. split; [done|]. by rewrite Hl, length_insert.
    + by exists m.
Qed.

(** X6: a program of at most as many values as there are memory cells
    returns from [load] with the values in the first cells, in order, the
    rest of memory as it was, the number of values in register 4, and no
    other register, nor [pc], [fl] or the output, touched. *)
Theorem load_places_program (values : list Z) (s : cpu) :
  length (reg s) = 8%nat -> (length values <= length (ram s))%nat ->
  exists s', load values s = Ok s'
    /\ ram s' = values ++ drop (length values) (ram s)
    /\ reg s' = <[4%nat := Z.of_nat (length values)]> (reg s)
    /\ pc s' = pc s /\ fl s' = fl s
    /\ is_running s' = is_running s /\ stdout s' = stdout s.
Proof.
  intros Hl Hfit.
  destruct (load_loop_spec values 0 (ram s)) as (m' & Hm' & Hlm & Hin & Hout);
    [lia..|].
  unfold load. rewrite Hm'. cbn [Z.add].
  rewrite (setitem_intro (reg s) PROGRAM_END _ 4%nat) by by rewrite Hl.
  cbn [bind]. eexists. split; [reflexivity|].
  cbn [set_reg set_ram ram reg pc fl is_running stdout].
  split; [|done].
  apply list_eq. intros i.
  destruct (decide (i < length values)%nat) as [Hi|Hi].
  - rewrite lookup_app_l by done.
    destruct (lookup_lt_is_Some_2 values i Hi) as [v Hv].
    rewrite Hv. by apply (Hin i v).
  - rewrite lookup_app_r by lia. rewrite lookup_drop.
    replace (length values + (i - length values))%nat with i by lia.
    apply Hout. cbn. lia.
Qed.

(** X7: a program of more values than there are memory cells never
    returns from [load]: the store past the last cell is swallowed by the
    bare [except], the "cannot open" line and the shutdown notice are
    printed, the process exits with status 2, and register 4 is not set. *)
Theorem load_too_long (values : list Z) (s : cpu) :
  (length (ram s) < length values)%nat ->
  exists m, length m = length (ram s)
    /\ load values s
       = SysExit IO_ERROR
           (print PrintShuttingDown (print PrintCannotOpen (set_ram s m)))
    /\ reg (print PrintShuttingDown (print PrintCannotOpen (set_ram s m)))
       = reg s
    /\ stdout (print PrintShuttingDown (print PrintCannotOpen (set_ram s m)))
       = stdout s ++ [PrintCannotOpen; PrintShuttingDown].
Proof.
  intros Hlong.
  destruct (load_loop_overflow values 0 (ram s)) as (m & Hm & Hl); [lia..|].
  exists m. split; [done|]. unfold load. rewrite Hm.
  split; [reflexivity|]. split; [reflexivity|].
  cbn. by rewrite <- app_assoc.
Qed.

(** ** How a handler can end *)

Section Within.
Context {PR : exn -> Prop} {PE : Z -> Prop}.

Lemma within_bind {A B : Type} (m : outcome A) (k : A -> outcome B) :
  within PR PE m -> (forall x, within PR PE (k x)) -> within PR PE (bind m k).
Proof. destruct m; cbn; auto. Qed.

Lemma within_getitem (l : list Z) (i : Z) :
  PR IndexError -> within PR PE (getitem l i).
Proof. intros H. by destruct (getitem_cases l i) as [[v ->]| ->]. Qed.

Lemma within_setitem (l : list Z) (i v : Z) :
  PR IndexError -> within PR PE (setitem l i v).
Proof. intros H. by destruct (setitem_cases l i v) as [(n & _ & ->)|[_ ->]]. Qed.

Lemma within_read_regs (l idxs : list Z) :
  PR IndexError -> within PR PE (read_regs l idxs).
Proof.
  intros H. induction idxs as [|i idxs IH]; [done|]. cbn [read_regs].
  apply within_bind; [by apply within_getitem|]. intros v.
  apply within_bind; [done|]. by intros vs.
Qed.

Lemma within_trace (s : cpu) : PR IndexError -> within PR PE (trace s).
Proof.
  intros H. unfold trace, ram_read.
  repeat (apply within_bind; [by apply within_getitem|intros ?]).
  apply within_bind; [by apply within_read_regs|]. by intros regs.
Qed.
End Within.

Ltac within_tac :=
  repeat first
    [ progress cbn [bind within]
    | exact I
    | apply within_getitem; unfold handler_exn; auto
    | apply within_setitem; unfold handler_exn; auto
    | apply within_trace; unfold handler_exn; auto
    | apply within_bind; [|intros ?]
    | match goal with
      | |- within _ _ (if ?c then _ else _) => destruct c
      | |- within _ _ (match ?c with Some _ => _ | None => _ end) =>
          destruct c as [[|]|]
      end ].

Lemma alu_within op a b s :
  In op alu_tags -> within handler_exn handler_exit (alu op a b s).
Proof.
  cbn [In alu_tags]. intros H.
  repeat (destruct H as [<-|H]);
    try (unfold alu, alu_dispatch, reg_binop, py_shl, py_shr;
         cbn [String.eqb Ascii.eqb Bool.eqb]; within_tac;
         unfold handler_exn, fault_exn; auto 6).
  destruct H.
Qed.

Lemma handler_within ir h a b s :
  In (ir, h) dispatch_table -> within handler_exn handler_exit (h a b s).
Proof.
  cbn [In dispatch_table]. intros H.
  repeat (destruct H as [[= <- <-]|H];
          [first [ apply alu_within; cbn; auto 10
                 | unfold _ldi, _prn, _hlt, _push, _pop, _jmp, _jeq, _jne,
                     ram_write, ram_read, _shutdown;
                   within_tac; reflexivity ]|]).
  destruct H.
Qed.

Lemma within_weaken {A : Type} (PR PR' : exn -> Prop) (PE PE' : Z -> Prop)
    (o : outcome A) :
  (forall e, PR e -> PR' e) -> (forall c, PE c -> PE' c) ->
  within PR PE o -> within PR' PE' o.
Proof. destruct o; cbn; auto. Qed.

Lemma run_body_within (s : cpu) : within handler_exn loop_exit (run_body s).
Proof.
  unfold run_body, fetch, ram_read.
  apply within_bind.
  { repeat (apply within_bind;
            [apply within_getitem; unfold handler_exn; auto|intros ?]).
    exact I. }
  intros [[ir a] b]. destruct (perform_op !! ir) as [h|] eqn:Hh.
  - apply within_bind; [apply within_trace; unfold handler_exn; auto|].
    intros s1. apply within_bind; [|by intros s2].
    apply perform_op_table in Hh.
    apply (within_weaken handler_exn _ handler_exit _); [done| |].
    + intros c ->. by right.
    + by apply (handler_within ir).
  - cbn. by left.
Qed.

(** X8: [run] never returns to its caller.  Whatever the program and the
    host, the loop ends in an exit with status 0 (and then the running flag
    is clear), 1 or 3, or dies of an [IndexError], of a [ValueError] or, in
    a left shift the host cannot build, of a [MemoryError] or an
    [OverflowError]; status 2 and the "Unsupported ALU operation" exception
    cannot come out of it. *)
Theorem run_ends (fuel : nat) (s : cpu) (r : outcome cpu) :
  run_loop fuel s = Some r ->
  match r with
  | Ok _ => False
  | Raise e =>
      e = IndexError \/ e = ValueError \/ e = MemoryError \/ e = OverflowError
  | SysExit c s' =>
      (c = DONE /\ is_running s' = false)
      \/ c = UNKNOWN_INSTRUCTION \/ c = STACK_OVERFLOW
  end.
Proof.
  revert s. induction fuel as [|fuel IH]; intros s; [discriminate|].
  cbn [run_loop]. destruct (is_running s) eqn:Hrun.
  - pose proof (run_body_within s) as Hw.
    destruct (run_body s) as [s1|e|c s1]; cbn in Hw.
    + apply IH.
    + intros [= <-]. exact Hw.
    + intros [= <-]. right. exact Hw.
  - intros [= <-]. left. split; [done|]. exact Hrun.
Qed.

(** ** Invariants of the loop body *)

Lemma Forall_setitem (P : Z -> Prop) (l : list Z) (i v : Z) (l' : list Z) :
  Forall P l -> P v -> setitem l i v = Ok l' -> Forall P l'.
Proof. intros Hl Hv (n & _ & ->)%setitem_inv. by apply Forall_insert. Qed.

Lemma Forall_getitem (P : Z -> Prop) (l : list Z) (i v : Z) :
  Forall P l -> getitem l i = Ok v -> P v.
Proof. intros Hl (n & _ & Hn)%getitem_inv. by eapply Forall_lookup_1. Qed.

Ltac sizes_tac H :=
  ok_inv H; subst;
  cbn [set_reg set_ram set_pc set_running print reg ram];
  repeat match goal with
    | E : setitem _ _ _ = Ok _ |- _ => apply length_setitem in E
    end;
  cbn [set_reg set_ram set_pc set_running print reg ram] in *;
  split; congruence.

Lemma alu_sizes op : keeps_sizes (alu op).
Proof.
  intros a b s s' H.
  destruct (alu_shape _ _ _ _ _ H) as (n & v & _ & Hr & _ & _ & Hm & _).
  by rewrite Hr, Hm, length_insert.
Qed.

Lemma handler_sizes ir h : In (ir, h) dispatch_table -> keeps_sizes h.
Proof.
  cbn [In dispatch_table]. intros H.
  repeat (destruct H as [[= <- <-]|H];
          [first [ exact (alu_sizes _)
                 | intros a b s s' Hx;
                   unfold _ldi, _prn, _hlt, _push, _pop, _jmp, _jeq, _jne,
                     ram_write, ram_read in Hx;
                   sizes_tac Hx ]|]).
  destruct H.
Qed.

(** X9: a pass through the loop body that returns leaves [ram] and [reg]
    at the lengths it found them: no instruction grows or shrinks either
    array. *)
Theorem run_body_keeps_sizes (s s' : cpu) :
  run_body s = Ok s' ->
  length (ram s') = length (ram s) /\ length (reg s') = length (reg s).
Proof.
  unfold run_body. intros H.
  destruct (fetch s) as [[[ir a] b]| |]; [|discriminate H..].
  cbn [bind] in H.
  destruct (perform_op !! ir) as [h|] eqn:Hh; [|discriminate H].
  destruct (trace s) as [s1| |] eqn:Ht; [|discriminate H..].
  cbn [bind] in H.
  destruct (h a b s1) as [s2| |] eqn:Hx; [|discriminate H..].
  cbn [bind] in H. injection H as <-.
  destruct (trace_inv _ _ Ht) as [e ->].
  apply perform_op_table in Hh.
  destruct (handler_sizes _ _ Hh _ _ _ _ Hx) as [Hr Hm].
  unfold _to_next_instruction.
  destruct (negb _); cbn [set_pc ram reg]; by rewrite Hr, Hm.
Qed.

Lemma alu_bytes op : keeps_bytes (alu op).
Proof.
  intros a b s s' _ Hr Hm H.
  destruct (alu_shape _ _ _ _ _ H) as (n & v & _ & -> & Hv & _ & -> & _).
  split; [by apply Forall_insert|done].
Qed.

Lemma ldi_bytes : keeps_bytes _ldi.
Proof.
  intros a b s s' Hb Hr Hm H. unfold _ldi in H. ok_inv H. subst s'.
  split; [|done]. eapply Forall_setitem; [exact Hr|exact Hb|eassumption].
Qed.

Lemma pop_bytes : keeps_bytes _pop.
Proof.
  intros a b s s' _ Hr Hm H. unfold _pop, ram_read in H.
  destruct (getitem (reg s) SP) as [sp| |] eqn:Hsp; [|discriminate H..].
  cbn [bind] in H.
  destruct (getitem (ram s) sp) as [v| |] eqn:Hv; [|discriminate H..].
  cbn [bind] in H.
  destruct (setitem (reg s) a v) as [r| |] eqn:Hset; [|discriminate H..].
  cbn [bind set_reg reg] in H.
  assert (Hr1 : Forall is_byte r).
  { eapply Forall_setitem; [exact Hr| |exact Hset].
    exact (Forall_getitem _ _ _ _ Hm Hv). }
  destruct (getitem r SP) as [sp1| |] eqn:Hsp1; [|discriminate H..].
  cbn [bind] in H.
  pose proof (Forall_getitem _ _ _ _ Hr1 Hsp1) as Hb1.
  destruct (Z.ltb_spec sp1 STACK_HEAD) as [Hlt|Hge].
  - cbn [bind] in H.
    destruct (setitem r SP (sp1 + 1)) as [r2| |] eqn:Hset2; [|discriminate H..].
    injection H as <-. split; [|done].
    eapply Forall_setitem; [exact Hr1| |exact Hset2].
    unfold is_byte, STACK_HEAD in *. lia.
  - injection H as <-. by split.
Qed.

Lemma push_bytes : keeps_bytes _push.
Proof.
  intros a b s s' _ Hr Hm H. unfold _push, ram_write in H.
  destruct (getitem (reg s) SP) as [sp| |] eqn:Hsp; [|discriminate H..].
  cbn [bind] in H.
  destruct (getitem (reg s) PROGRAM_END) as [k| |] eqn:Hk; [|discriminate H..].
  cbn [bind] in H.
  pose proof (Forall_getitem _ _ _ _ Hr Hsp) as Hbsp.
  pose proof (Forall_getitem _ _ _ _ Hr Hk) as Hbk.
  destruct (sp - 1 >=? k) eqn:Hge.
  - apply Z.geb_le in Hge.
    destruct (setitem (reg s) SP (sp - 1)) as [r| |] eqn:Hset; [|discriminate H..].
    cbn [bind set_reg reg ram] in H.
    assert (Hr1 : Forall is_byte r).
    { eapply Forall_setitem; [exact Hr| |exact Hset].
      unfold is_byte in *. lia. }
    destruct (getitem r SP) as [sp1| |] eqn:Hsp1; [|discriminate H..].
    cbn [bind] in H.
    destruct (getitem r a) as [v| |] eqn:Hv; [|discriminate H..].
    cbn [bind] in H.
    destruct (setitem (ram s) sp1 v) as [m| |] eqn:Hw; [|discriminate H..].
    injection H as <-. split; [done|].
    eapply Forall_setitem; [exact Hm| |exact Hw].
    exact (Forall_getitem _ _ _ _ Hr1 Hv).
  - by destruct (trace _).
Qed.

Lemma handler_bytes ir h : In (ir, h) dispatch_table -> keeps_bytes h.
Proof.
  cbn [In dispatch_table]. intros H.
  repeat (destruct H as [[= <- <-]|H];
          [first [ exact (alu_bytes _) | exact ldi_bytes
                 | exact pop_bytes | exact push_bytes
                 | intros a b s s' _ Hr Hm Hx;
                   unfold _prn, _hlt, _jmp, _jeq, _jne in Hx;
                   ok_inv Hx; subst; by split ]|]).
  destruct H.
Qed.

Lemma load_loop_forall (P : Z -> Prop) values address m m' r :
  Forall P m -> Forall P values ->
  load_loop values address m = (m', r) -> Forall P m'.
Proof.
  revert address m. induction values as [|v values IH]; intros address m Hm Hv.
  - by intros [= <- _].
  - cbn [load_loop]. apply Forall_cons in Hv as [Hv Hvs].
    destruct (setitem m address v) as [m1| |] eqn:Hs.
    + apply IH; [|done]. exact (Forall_setitem _ _ _ _ _ Hm Hv Hs).
    + by intros [= <- _].
    + by intros [= <- _].
Qed.

Lemma load_loop_address values address m m' addr :
  load_loop values address m = (m', Some addr) ->
  addr = address + Z.of_nat (length values).
Proof.
  revert address m. induction values as [|v values IH]; intros address m.
  - intros [= _ <-]. cbn. lia.
  - cbn [load_loop length]. destruct (setitem m address v); [|discriminate..].
    intros ->%IH. lia.
Qed.

(** X10: a machine fed bytes holds bytes.  A fresh machine has a byte in
    every register and cell; [load] of at most 255 byte values keeps it so;
    and so does every pass through the loop body that returns (LDI stores a
    fetched byte, the ALU clamps, PUSH and POP keep SP between the program
    end and 0xF4). *)
Theorem machine_stays_byte_valued :
  (Forall is_byte (ram init) /\ Forall is_byte (reg init))
  /\ (forall values s s',
        Forall is_byte values -> (length values <= 255)%nat ->
        Forall is_byte (ram s) -> Forall is_byte (reg s) ->
        load values s = Ok s' ->
        Forall is_byte (ram s') /\ Forall is_byte (reg s'))
  /\ (forall s s',
        Forall is_byte (ram s) -> Forall is_byte (reg s) ->
        run_body s = Ok s' ->
        Forall is_byte (ram s') /\ Forall is_byte (reg s')).
Proof.
  split; [|split].
  - split.
    + apply Forall_replicate. unfold is_byte. lia.
    + cbn. repeat constructor; unfold is_byte, STACK_HEAD; lia.
  - intros values s s' Hv Hlen Hm Hr. unfold load.
    destruct (load_loop values 0 (ram s)) as [m [addr|]] eqn:Hl; [|discriminate].
    pose proof (load_loop_forall _ _ _ _ _ _ Hm Hv Hl) as Hm'.
    apply load_loop_address in Hl. intros H. ok_inv H. subst s'.
    split; [done|]. eapply Forall_setitem; [exact Hr| |eassumption].
    unfold is_byte. lia.
  - intros s s' Hm Hr H. unfold run_body in H.
    destruct (fetch s) as [[[ir a] b]| |] eqn:Hf; [|discriminate H..].
    cbn [bind] in H.
    destruct (perform_op !! ir) as [h|] eqn:Hh; [|discriminate H].
    destruct (trace s) as [s1| |] eqn:Ht; [|discriminate H..].
    cbn [bind] in H.
    destruct (h a b s1) as [s2| |] eqn:Hx; [|discriminate H..].
    cbn [bind] in H. injection H as <-.
    destruct (trace_inv _ _ Ht) as [e ->].
    apply perform_op_table in Hh.
    assert (Hb : is_byte b).
    { unfold fetch, ram_read in Hf. ok_inv Hf. subst.
      eapply Forall_getitem; [exact Hm|eassumption]. }
    destruct (handler_bytes _ _ Hh a b (print e s) _ Hb Hr Hm Hx) as [Hr' Hm'].
    unfold _to_next_instruction. by destruct (negb _).
Qed.

Lemma ldi_demo_bytes :
  Forall is_byte (ram ldi_demo) /\ Forall is_byte (reg ldi_demo).
Proof.
  split.
  - change (ram ldi_demo) with ([LDI; 0; 8; PRN; 0; HLT] ++ replicate 250 0).
    apply Forall_app. split.
    + repeat constructor; unfold is_byte, LDI, PRN, HLT; lia.
    + apply Forall_replicate. unfold is_byte. lia.
  - change (reg ldi_demo) with [0; 0; 0; 0; 6; 0; 0; 244].
    repeat constructor; unfold is_byte; lia.
Defined.

(** ** Memory cells *)

(** X11: a [ram_write] that returns is read back by [ram_read] at the same
    address, leaves every address that names another cell (or no cell)
    reading as before, and changes nothing but that cell. *)
Theorem ram_write_then_read (s s' : cpu) (mar mdr : Z) :
  ram_write mar mdr s = Ok s' ->
  ram_read mar s' = Ok mdr
  /\ (forall i, py_index (Z.of_nat (length (ram s))) i
                <> py_index (Z.of_nat (length (ram s))) mar ->
        ram_read i s' = ram_read i s)
  /\ length (ram s') = length (ram s)
  /\ reg s' = reg s /\ pc s' = pc s /\ fl s' = fl s
  /\ is_running s' = is_running s /\ stdout s' = stdout s.
Proof.
  unfold ram_write. intros H.
  destruct (setitem (ram s) mar mdr) as [m| |] eqn:Hw; [|discriminate H..].
  injection H as <-. unfold ram_read. cbn [set_ram ram reg pc fl is_running stdout].
  split; [by eapply getitem_setitem_eq|].
  apply setitem_inv in Hw as (n & Hn & ->).
  split; [|by rewrite length_insert].
  intros i Hi. unfold getitem. rewrite length_insert, Hn in *.
  destruct (py_index _ i) as [j|]; [|done].
  rewrite list_lookup_insert_ne; [done|congruence].
Qed.

(** ** The stack and the program below it *)

Lemma fetch_succeeds_alike (s s' : cpu) :
  length (ram s') = length (ram s) -> pc s' = pc s ->
  (exists t, fetch s = Ok t) -> exists t, fetch s' = Ok t.
Proof.
  intros Hl Hpc [t Ht]. unfold fetch, ram_read in *. rewrite Hpc.
  destruct (getitem (ram s) (pc s)) as [x0| |] eqn:H0; [|discriminate Ht..].
  cbn [bind] in Ht.
  destruct (getitem (ram s) (pc s + 1)) as [x1| |] eqn:H1; [|discriminate Ht..].
  cbn [bind] in Ht.
  destruct (getitem (ram s) (pc s + 2)) as [x2| |] eqn:H2; [|discriminate Ht..].
  apply getitem_inv in H0 as (n0 & Hn0 & _).
  apply getitem_inv in H1 as (n1 & Hn1 & _).
  apply getitem_inv in H2 as (n2 & Hn2 & _).
  rewrite <- Hl in Hn0, Hn1, Hn2.
  destruct (getitem_total _ _ _ Hn0) as [y0 ->].
  destruct (getitem_total _ _ _ Hn1) as [y1 ->].
  destruct (getitem_total _ _ _ Hn2) as [y2 ->].
  cbn [bind]. eauto.
Qed.

(** X12: a PUSH that returns writes one cell, at or above the program end
    held in register 4 (when that is not negative): every cell of the
    loaded program is as before, and so is register 4. *)
Theorem push_keeps_program (s s' : cpu) (a b k : Z) :
  length (reg s) = 8%nat ->
  getitem (reg s) PROGRAM_END = Ok k -> 0 <= k ->
  _push a b s = Ok s' ->
  (forall j, Z.of_nat j < k -> ram s' !! j = ram s !! j)
  /\ getitem (reg s') PROGRAM_END = Ok k
  /\ length (ram s') = length (ram s).
Proof.
  intros Hl Hk Hk0 H.
  assert (H7 : py_index (Z.of_nat (length (reg s))) SP = Some 7%nat) by by rewrite Hl.
  unfold _push, ram_write in H.
  destruct (getitem (reg s) SP) as [sp| |] eqn:Hsp; [|discriminate H..].
  rewrite Hk in H. cbn [bind] in H.
  destruct (sp - 1 >=? k) eqn:Hge; [|by destruct (trace _)].
  apply Z.geb_le in Hge.
  rewrite (setitem_intro _ _ _ _ H7) in H. cbn [bind set_reg reg ram] in H.
  rewrite getitem_insert with (m := 7%nat) in H by done.
  rewrite decide_True in H by done. cbn [bind] in H.
  destruct (getitem _ a) as [v| |]; [|discriminate H..]. cbn [bind] in H.
  destruct (setitem (ram s) (sp - 1) v) as [m| |] eqn:Hw; [|discriminate H..].
  injection H as <-. cbn [set_ram set_reg ram reg].
  apply setitem_inv in Hw as (n & Hn & ->).
  apply py_index_nonneg_inv in Hn as [_ ->]; [|lia].
  split; [|split].
  - intros j Hj. apply list_lookup_insert_ne. lia.
  - apply getitem_reg; [by rewrite length_insert|done|].
    rewrite list_lookup_insert_ne by done.
    by apply getitem_reg in Hk.
  - by rewrite length_insert.
Qed.

Lemma pushes_fit (a b k : Z) (n0 : nat) (n : nat) :
  py_index 8 a = Some n0 -> 0 <= k ->
  forall s sp,
    length (reg s) = 8%nat -> length (ram s) = 256%nat ->
    reg s !! 7%nat = Some sp -> reg s !! 4%nat = Some k ->
    sp <= 256 -> Z.of_nat n <= sp - k ->
    (exists t, fetch s = Ok t) ->
    exists s', exec_seq (replicate n (IPush a b)) s = Ok s'
      /\ length (reg s') = 8%nat /\ length (ram s') = 256%nat
      /\ reg s' !! 7%nat = Some (sp - Z.of_nat n)
      /\ reg s' !! 4%nat = Some k
      /\ (exists t, fetch s' = Ok t).
Proof.
  intros Ha Hk0. induction n as [|n IH]; intros s sp Hl Hm Hsp Hk Hsp256 Hn Hf.
  - exists s. cbn. repeat split; try done. rewrite Hsp. f_equal. lia.
  - assert (Hidx : py_index (Z.of_nat (length (ram s))) (sp - 1)
                   = Some (Z.to_nat (sp - 1))).
    { apply py_index_nonneg. rewrite Hm. lia. }
    destruct (push_within s a b sp k n0 _ Hl Hsp Hk ltac:(lia) Ha Hidx)
      as (v & Hv & Hp).
    destruct (IH (pushed s sp (Z.to_nat (sp - 1)) v) (sp - 1))
      as (s' & Hs' & Hl' & Hm' & Hsp' & Hk' & Hf').
    + cbn [pushed set_ram set_reg reg]. by rewrite length_insert.
    + cbn [pushed set_ram set_reg ram]. by rewrite length_insert.
    + cbn [pushed set_ram set_reg reg]. apply list_lookup_insert_eq.
      rewrite Hl. lia.
    + cbn [pushed set_ram set_reg reg]. by rewrite list_lookup_insert_ne.
    + lia.
    + lia.
    + apply (fetch_succeeds_alike s); [|done..].
      cbn [pushed set_ram set_reg ram]. by rewrite length_insert.
    + exists s'. cbn [replicate exec_seq exec_stack]. rewrite Hp. cbn [bind].
      do 3 (split; [done|]). split; [|done].
      rewrite Hsp'. f_equal. lia.
Qed.

(** X13: the stack holds exactly [sp - k] values: from a stack pointer [sp]
    over a program end [k], that many PUSHes in a row all return, each
    taking SP down by one, and one more ends the process with status 3. *)
Theorem stack_capacity (s : cpu) (a b sp k : Z) (n0 : nat) :
  length (reg s) = 8%nat -> length (ram s) = 256%nat ->
  getitem (reg s) SP = Ok sp -> getitem (reg s) PROGRAM_END = Ok k ->
  0 <= k <= sp -> sp <= 256 ->
  py_index 8 a = Some n0 ->
  (exists t, fetch s = Ok t) ->
  (forall n, Z.of_nat n <= sp - k ->
     exists s', exec_seq (replicate n (IPush a b)) s = Ok s'
                /\ getitem (reg s') SP = Ok (sp - Z.of_nat n))
  /\ (exists s', exec_seq (replicate (S (Z.to_nat (sp - k))) (IPush a b)) s
                 = SysExit STACK_OVERFLOW s').
Proof.
  intros Hl Hm Hsp Hk Hks Hsp256 Ha Hf.
  apply getitem_reg in Hsp; [|done|done]. apply getitem_reg in Hk; [|done|done].
  change (Z.to_nat SP) with 7%nat in Hsp.
  change (Z.to_nat PROGRAM_END) with 4%nat in Hk.
  split.
  - intros n Hn.
    destruct (pushes_fit a b k n0 n Ha ltac:(lia) s sp Hl Hm Hsp Hk Hsp256 Hn Hf)
      as (s' & Hs' & Hl' & _ & Hsp' & _).
    exists s'. split; [done|]. by apply getitem_reg.
  - destruct (pushes_fit a b k n0 (Z.to_nat (sp - k)) Ha ltac:(lia)
                s sp Hl Hm Hsp Hk Hsp256 ltac:(lia) Hf)
      as (s' & Hs' & Hl' & _ & Hsp' & Hk' & [[[b0 b1] b2] Hf']).
    rewrite replicate_S_end, exec_seq_app, Hs'. cbn [bind exec_seq exec_stack].
    rewrite (push_beyond s' a b _ k b0 b1 b2 Hl' Hsp' Hk' ltac:(lia) Hf').
    eauto.
Qed.

(** ** Instructions in sequence *)

Lemma cmp_leaves_flag (s s1 : cpu) (a b x y : Z) :
  getitem (reg s) a = Ok x -> getitem (reg s) b = Ok y ->
  alu "CMP" a b s = Ok s1 ->
  fl s1 = Z.lor (Z.land (fl s) CMP_CLEAR) (cmp_flag x y) /\ pc s1 = pc s.
Proof.
  intros Ha Hb H.
  pose proof (alu_dispatch_cmp s a b x y Ha Hb) as Hd.
  destruct (alu_after_dispatch _ a b s _ x Hd Ha) as (r & _ & Halu).
  rewrite Halu in H. injection H as <-. by split.
Qed.

(** X14: CMP followed by a conditional jump branches on the comparison:
    after CMP on registers holding [x] and [y], JEQ to register [c] sets
    [pc] to [reg[c]] exactly when [x = y] and otherwise to [pc + 2]; JNE
    does the opposite. *)
Theorem cmp_then_branch (s s1 : cpu) (a b x y c d t : Z) :
  getitem (reg s) a = Ok x -> getitem (reg s) b = Ok y ->
  alu "CMP" a b s = Ok s1 ->
  getitem (reg s1) c = Ok t ->
  _jeq c d s1 = Ok (set_pc s1 (if x =? y then t else pc s + 2))
  /\ _jne c d s1 = Ok (set_pc s1 (if x =? y then pc s + 2 else t)).
Proof.
  intros Ha Hb H Hc.
  destruct (cmp_leaves_flag s s1 a b x y Ha Hb H) as [Hfl Hpc].
  assert (Heq : truthy (Z.land (fl s1) EQ) = (x =? y)).
  { rewrite Hfl, cmp_bits_test by reflexivity.
    destruct (cmp_flag_cases x y) as [[Hc' ->]|[[Hc' ->]|[Hc' ->]]];
      destruct (Z.eqb_spec x y); try lia; reflexivity. }
  unfold _jeq, _jne. rewrite Heq, Hc, Hpc.
  by destruct (x =? y).
Qed.

(** X15: an operand that names no register (below -8, or 8 and above, on
    the eight-register file) makes LDI, PRN, JMP, POP and every ALU
    operation raise [IndexError]: operand bytes are not masked. *)
Theorem bad_register_operand (s : cpu) (a b : Z) :
  length (reg s) = 8%nat -> a < -8 \/ 8 <= a ->
  _ldi a b s = Raise IndexError
  /\ _prn a b s = Raise IndexError
  /\ _jmp a b s = Raise IndexError
  /\ _pop a b s = Raise IndexError
  /\ (forall op, In op alu_tags -> alu op a b s = Raise IndexError).
Proof.
  intros Hl Ha.
  assert (Hn : py_index (Z.of_nat (length (reg s))) a = None).
  { rewrite Hl. change (Z.of_nat 8) with 8.
    destruct (py_index 8 a) as [n|] eqn:E; [exfalso|done].
    unfold py_index in E.
    repeat match type of E with
      | context [if ?c then _ else _] =>
          let E' := fresh "E" in
          destruct c eqn:E';
          [apply andb_true_iff in E' as [?%Z.leb_le ?%Z.ltb_lt]; lia|]
      end.
    discriminate E. }
  assert (Hg : getitem (reg s) a = Raise IndexError)
    by (unfold getitem; by rewrite Hn).
  assert (Hs : forall v l, length l = length (reg s) ->
                           setitem l a v = Raise IndexError).
  { intros v l Hlen. unfold setitem. by rewrite Hlen, Hn. }
  split; [|split; [|split; [|split]]].
  - unfold _ldi. by rewrite Hs.
  - unfold _prn. by rewrite Hg.
  - unfold _jmp. by rewrite Hg.
  - unfold _pop, ram_read.
    destruct (getitem_cases (reg s) SP) as [[sp ->]| ->]; [|done]. cbn [bind].
    destruct (getitem_cases (ram s) sp) as [[v ->]| ->]; [|done]. cbn [bind].
    by rewrite Hs.
  - intros op Hop. cbn [In alu_tags] in Hop.
    repeat (destruct Hop as [<-|Hop];
            [unfold alu, alu_dispatch, reg_binop;
             cbn [String.eqb Ascii.eqb Bool.eqb set_fl reg];
             by rewrite Hg|]).
    destruct Hop.
Qed.

(** X16: LDI stores its second operand as it is (no clamp) in the operand
    register and touches nothing else, and a PRN of that register then
    prints exactly that value. *)
Theorem ldi_then_prn (s s1 : cpu) (a v b : Z) :
  _ldi a v s = Ok s1 ->
  _prn a b s1 = Ok (print (PrintValue v) s1)
  /\ getitem (reg s1) a = Ok v
  /\ (forall j, py_index (Z.of_nat (length (reg s))) a <> Some j ->
        reg s1 !! j = reg s !! j)
  /\ ram s1 = ram s /\ pc s1 = pc s /\ fl s1 = fl s
  /\ stdout s1 = stdout s.
Proof.
  unfold _ldi. intros H.
  destruct (setitem (reg s) a v) as [r| |] eqn:Hset; [|discriminate H..].
  injection H as <-. cbn [set_reg reg ram pc fl stdout].
  pose proof (getitem_setitem_eq _ _ _ _ Hset) as Hget.
  split; [unfold _prn; cbn [set_reg reg]; by rewrite Hget|].
  split; [done|]. split; [|done].
  apply setitem_inv in Hset as (n & Hn & ->).
  intros j Hj. apply list_lookup_insert_ne. congruence.
Qed.

(** ** What each instruction leaves alone *)

Lemma handler_frame ir h a b s s' :
  In (ir, h) dispatch_table -> h a b s = Ok s' ->
  (ir <> CMP -> fl s' = fl s)
  /\ (ir <> HLT -> is_running s' = is_running s)
  /\ (ir = HLT -> is_running s' = false)
  /\ (ir <> PUSH -> ram s' = ram s)
  /\ (ir <> PRN -> stdout s' = stdout s)
  /\ (ir = PRN -> exists v, getitem (reg s) a = Ok v
                            /\ stdout s' = stdout s ++ [PrintValue v]).
Proof.
  cbn [In dispatch_table]. intros H Hx.
  repeat (destruct H as [[= <- <-]|H];
          [first
             [ destruct (alu_shape _ _ _ _ _ Hx)
                 as (n & v & _ & _ & _ & _ & Hm & _ & Hrun & Hout & Hfl);
               repeat split; intros; try done;
               apply Hfl; discriminate
             | unfold _ldi, _prn, _hlt, _push, _pop, _jmp, _jeq, _jne,
                 ram_write, ram_read in Hx;
               ok_inv Hx; subst;
               repeat split; intros; try done; eauto ]|]).
  destruct H.
Qed.

(** The trace line shows the first eight registers. *)
Lemma read_regs_take (l regs : list Z) :
  read_regs l (seqZ 0 8) = Ok regs -> regs = take 8 l.
Proof.
  change (seqZ 0 8) with [0; 1; 2; 3; 4; 5; 6; 7]. cbn [read_regs].
  intros H.
  repeat match type of H with
    | context [bind (getitem l ?i) _] =>
        let v := fresh "v" in let E := fresh "E" in
        destruct (getitem l i) as [v| |] eqn:E; cbn [bind] in H;
        [|discriminate H..]
    end.
  repeat match goal with
    | E : getitem l _ = Ok _ |- _ =>
        apply getitem_inv in E as (? & [? ->]%py_index_nonneg_inv & E);
        [|lia]
    end.
  injection H as <-.
  change (Z.to_nat 0) with 0%nat in *. change (Z.to_nat 1) with 1%nat in *.
  change (Z.to_nat 2) with 2%nat in *. change (Z.to_nat 3) with 3%nat in *.
  change (Z.to_nat 4) with 4%nat in *. change (Z.to_nat 5) with 5%nat in *.
  change (Z.to_nat 6) with 6%nat in *. change (Z.to_nat 7) with 7%nat in *.
  do 8 (destruct l as [|? l]; [discriminate|]).
  cbn in *. by simplify_eq.
Qed.

Lemma trace_event s s1 ir a b :
  fetch s = Ok (ir, a, b) -> trace s = Ok s1 ->
  s1 = print (PrintTrace (pc s) ir a b (take 8 (reg s))) s.
Proof.
  unfold fetch, trace.
  destruct (ram_read (pc s) s) as [x0| |]; [|discriminate..]. cbn [bind].
  destruct (ram_read (pc s + 1) s) as [x1| |]; [|discriminate..]. cbn [bind].
  destruct (ram_read (pc s + 2) s) as [x2| |]; [|discriminate..]. cbn [bind].
  intros [= -> -> ->].
  destruct (read_regs (reg s) (seqZ 0 8)) as [regs| |] eqn:E; [|discriminate..].
  cbn [bind]. intros [= <-]. by rewrite (read_regs_take _ _ E).
Qed.

(** X17: in a pass through the loop body that returns, only CMP can
    change the flags, only HLT changes the running flag (it clears it),
    only PUSH can change memory, and the output grows by the trace line
    alone, which shows [pc], the three fetched bytes and the first eight
    registers as they were before the instruction; PRN adds the value of
    its register after that line. *)
Theorem instruction_frame (s s' : cpu) (ir a b : Z) :
  fetch s = Ok (ir, a, b) -> run_body s = Ok s' ->
  (ir <> CMP -> fl s' = fl s)
  /\ (ir <> HLT -> is_running s' = is_running s)
  /\ (ir = HLT -> is_running s' = false)
  /\ (ir <> PUSH -> ram s' = ram s)
  /\ (ir <> PRN ->
      stdout s' = stdout s ++ [PrintTrace (pc s) ir a b (take 8 (reg s))])
  /\ (ir = PRN ->
      exists v, getitem (reg s) a = Ok v
        /\ stdout s'
           = stdout s ++ [PrintTrace (pc s) ir a b (take 8 (reg s));
                          PrintValue v]).
Proof.
  intros Hf H. unfold run_body in H. rewrite Hf in H. cbn [bind] in H.
  destruct (perform_op !! ir) as [h|] eqn:Hh; [|discriminate H].
  destruct (trace s) as [s1| |] eqn:Ht; [|discriminate H..].
  cbn [bind] in H.
  destruct (h a b s1) as [s2| |] eqn:Hx; [|discriminate H..].
  cbn [bind] in H. injection H as <-.
  rewrite (trace_event _ _ _ _ _ Hf Ht) in Hx.
  apply perform_op_table in Hh.
  destruct (handler_frame _ _ _ _ _ _ Hh Hx) as (Hfl & Hrun & Hhlt & Hm & Hout & Hprn).
  assert (Hnext : forall t, _to_next_instruction ir t = t
                            \/ exists p, _to_next_instruction ir t = set_pc t p).
  { intros t. unfold _to_next_instruction. destruct (negb _); eauto. }
  destruct (Hnext s2) as [->|[p ->]]; cbn [set_pc fl is_running ram stdout];
    (do 4 (split; [assumption|]); split;
     [ intros Hne; by rewrite (Hout Hne)
     | intros Heq; destruct (Hprn Heq) as (v & Hv & Hs);
       exists v; split; [exact Hv|];
       rewrite Hs; cbn [print stdout]; by rewrite <- app_assoc ]).
Qed.

End Machine.

(** * Worked examples on a concrete host

    Every statement above holds for all hosts.  The examples below run the
    machine on [demo_host]. *)

#[local] Existing Instance demo_host.

Lemma cmp_sets_exactly_one_flag_witness :
  exists s', alu "CMP" 0 1 (set_reg init [5; 9; 0; 0; 0; 0; 0; 244]) = Ok s'
    /\ Z.land (fl s') 7 = LT
    /\ flag_set LT s' = true
    /\ flag_set GT s' = false
    /\ flag_set EQ s' = false
    /\ Z.land (fl s') CMP_CLEAR = 0.
Proof.
  apply (cmp_sets_exactly_one_flag
           (set_reg init [5; 9; 0; 0; 0; 0; 0; 244]) 0 1 5 9);
    reflexivity.
Defined.

Lemma alu_clamps_reg_a_witness :
  let s := set_reg init [200; 100; 0; 7; 0; 0; 0; 244] in
  (exists v, getitem (reg (set_reg s [44; 100; 0; 7; 0; 0; 0; 244])) 0 = Ok v
             /\ 0 <= v <= 255)
  /\ (exists s' v, alu "SHL" 1 3 s = Ok s'
                   /\ getitem (reg s') 1 = Ok v /\ 0 <= v <= 255)
  /\ (exists s', alu "ADD" 0 1 s = Ok s' /\ getitem (reg s') 0 = Ok 44).
Proof.
  intros s. destruct alu_clamps_reg_a as (H1 & H2 & H3). repeat split.
  - apply (H1 "ADD"%string 0 1 s); [cbn; auto|reflexivity].
  - apply (H2 "SHL"%string 1 3 s 100 7).
    + cbn; auto 10.
    + reflexivity.
    + reflexivity.
    + intros _; lia.
    + intros _; right; reflexivity.
  - apply (H3 0 1 s); reflexivity.
Defined.

Lemma cmp_mutates_no_register_witness :
  let s := set_reg init [5; 9; 0; 0; 0; 0; 0; 244] in
  exists s', alu "CMP" 0 1 s = Ok s'
    /\ reg s' = reg s /\ ram s' = ram s /\ pc s' = pc s
    /\ is_running s' = is_running s /\ stdout s' = stdout s.
Proof.
  intros s. apply (cmp_mutates_no_register s 0 1 5 9); [|reflexivity..].
  cbn. repeat constructor; unfold is_byte; lia.
Defined.

Lemma push_stack_boundary_witness :
  (exists s' v, _push 0 0 roomy = Ok s'
     /\ getitem (reg s') SP = Ok 243
     /\ ram_read 243 s' = Ok v
     /\ getitem (reg s') 0 = Ok v
     /\ getitem (reg roomy) 0 = Ok v
     /\ reg s' = <[7%nat := 243]> (reg roomy)
     /\ ram s' = <[243%nat := v]> (ram roomy)
     /\ getitem (reg s') PROGRAM_END = Ok 6
     /\ pc s' = pc roomy /\ fl s' = fl roomy
     /\ is_running s' = is_running roomy /\ stdout s' = stdout roomy)
  /\ (_push 0 0 cramped = SysExit STACK_OVERFLOW (overflowed cramped PUSH 0 0)
      /\ stdout (overflowed cramped PUSH 0 0)
         = [PrintStackOverflow; PrintTrace 0 PUSH 0 0 (reg cramped);
            PrintShuttingDown])
  /\ (forall fuel, run_loop (S fuel) cramped
        = Some (SysExit STACK_OVERFLOW
                  (overflowed (print (PrintTrace 0 PUSH 0 0 (reg cramped)) cramped)
                     PUSH 0 0))).
Proof.
  split; [|split].
  - destruct (push_stack_boundary roomy 0 0 244 6) as (H & _ & _);
      [reflexivity..|lia|lia|].
    apply (H ltac:(lia) 0%nat eq_refl).
  - destruct (push_stack_boundary cramped 0 0 2 2) as (_ & H & _);
      [reflexivity..|lia|lia|].
    apply (H ltac:(lia) PUSH 0 0 eq_refl).
  - destruct (push_stack_boundary cramped 0 0 2 2) as (_ & _ & H);
      [reflexivity..|lia|lia|].
    apply (H ltac:(lia) eq_refl eq_refl).
Defined.

Lemma pop_reads_then_saturates_witness :
  (exists s', _pop 0 0 stacked = Ok s'
     /\ reg s' = [42; 0; 0; 0; 6; 0; 0; 243]
     /\ reg s' !! 0%nat = Some 42
     /\ reg s' !! 7%nat = Some 243
     /\ reg s' !! 1%nat = reg stacked !! 1%nat
     /\ ram s' = ram stacked)
  /\ (exists s', exec_seq [IPop 0 0; IPop 1 0; IPop 2 0; IPop 3 0] stacked = Ok s'
        /\ reg s' !! 7%nat = Some 244
        /\ ram s' = ram stacked)
  /\ exec_seq [IPop 0 0; IPop 1 0; IPop 2 0; IPop 3 0] stacked
     = Ok (set_reg stacked [42; 17; 0; 0; 6; 0; 0; 244]).
Proof.
  destruct (pop_reads_then_saturates stacked 0 0 242 42 0%nat) as [H1 H2];
    [reflexivity|reflexivity|reflexivity|lia|reflexivity|reflexivity|].
  split; [|split; [|reflexivity]].
  - destruct H1 as (s' & Hp & Hreg & Hv & Hsp & _ & Hj & Hram & _).
    exists s'. split; [exact Hp|]. split; [exact Hreg|].
    split; [apply Hv; lia|]. split; [apply Hsp; lia|].
    split; [apply Hj; lia|exact Hram].
  - apply (H2 [IPop 0 0; IPop 1 0; IPop 2 0; IPop 3 0]);
      [|unfold STACK_HEAD; lia].
    repeat constructor; cbn; eexists; (split; [reflexivity|lia]).
Defined.

(** The same through the run loop: the program PUSH R7; POP R0; PRN R0; HLT
    prints 243. *)
Example push_sp_program_prints_243 :
  exists s0 s', load [PUSH; 7; POP; 0; PRN; 0; HLT] init = Ok s0
    /\ run 10 s0 = Some (SysExit DONE s')
    /\ In (PrintValue 243) (stdout s').
Proof.
  eexists. eexists. split; [reflexivity|]. split; [vm_compute; reflexivity|].
  cbn. auto 10.
Qed.

Lemma balanced_round_trip_witness :
  getitem (reg after_nested_demo) 3 = Ok 42
  /\ getitem (reg after_nested_demo) SP = getitem (reg roomy) SP.
Proof.
  apply (balanced_round_trip roomy 0 0 3 0 [IPush 1 0; IPop 2 0]).
  - exact roomy_well_formed.
  - apply (balanced_pair 1 0 2 0 [] []); constructor.
  - repeat constructor; cbn; discriminate.
  - cbn. discriminate.
  - reflexivity.
  - reflexivity.
Defined.

Lemma pc_after_instruction_witness :
  pc (after_body ldi_demo) = 0 + 1 + 2
  /\ getitem (reg jmp_demo) 2 = Ok (pc (after_body jmp_demo))
  /\ pc (after_body jmp_demo) = 77.
Proof.
  split; [|split].
  - destruct (pc_after_instruction ldi_demo (after_body ldi_demo) LDI 0 8
                eq_refl eq_refl) as (H & _).
    exact (H eq_refl).
  - destruct (pc_after_instruction jmp_demo (after_body jmp_demo) JMP 2 0
                eq_refl eq_refl) as (_ & _ & H & _).
    exact (H eq_refl).
  - reflexivity.
Defined.

Lemma unknown_exits_1_hlt_exits_0_witness :
  (run_loop 1 idle = Some (SysExit UNKNOWN_INSTRUCTION (unknown_exit idle 0))
   /\ stdout (unknown_exit idle 0) = [PrintUnknown 0; PrintShuttingDown])
  /\ run_loop 2 hlt_demo = Some (SysExit DONE (halted hlt_demo 0 0)).
Proof.
  destruct unknown_exits_1_hlt_exits_0 as (_ & _ & _ & _ & H1 & H2).
  split.
  - apply (H1 idle 0 0 0 0%nat eq_refl eq_refl).
    vm_compute. lia.
  - apply (H2 hlt_demo 0 0 0%nat eq_refl eq_refl eq_refl).
Defined.

(** C9, as stated, fails: the loop started on [wander] runs its third
    iteration at [pc = 254], where the read of the second operand byte is
    a subscript of 256 on a 256-cell list; the process dies of the
    [IndexError]. *)
Lemma fetch_raises_at_254 :
  exists s0 s1 s2,
    load wander init = Ok s0
    /\ run_body (set_running (print PrintRunning s0) true) = Ok s1
    /\ is_running s1 = true
    /\ run_body s1 = Ok s2
    /\ is_running s2 = true
    /\ pc s2 = 254
    /\ length (ram s2) = 256%nat
    /\ fetch s2 = Raise IndexError
    /\ run 10 s0 = Some (Raise IndexError).
Proof.
  do 3 eexists. split; [reflexivity|]. split; [reflexivity|].
  repeat split; reflexivity.
Qed.

Lemma fetch_within_memory_witness :
  (exists ir a b, fetch ldi_demo = Ok (ir, a, b)
     /\ ram ldi_demo !! 0%nat = Some ir
     /\ ram ldi_demo !! 1%nat = Some a
     /\ ram ldi_demo !! 2%nat = Some b)
  /\ fetch (set_pc idle 254) = Raise IndexError
  /\ run_body (set_pc idle 254) = Raise IndexError
  /\ run_loop 1 (set_pc idle 254) = Some (Raise IndexError)
  /\ (let s0 := set_pc (set_reg (set_ram idle (<[250%nat := JMP]> (ram idle)))
                          [254; 0; 0; 0; 0; 0; 0; 244]) 250 in
      let s := after_body s0 in
      pc s = 254
      /\ exists n, forall fuel, (n <= fuel)%nat ->
           run_loop fuel s0 = Some (Raise IndexError)).
Proof.
  split.
  - apply (proj1 (fetch_within_memory ldi_demo eq_refl)).
    change (pc ldi_demo) with 0. lia.
  - destruct (proj2 (fetch_within_memory (set_pc idle 254) eq_refl))
      as (Hf & Hb & Hl).
    { change (pc (set_pc idle 254)) with 254. lia. }
    split; [exact Hf|]. split; [exact Hb|].
    split; [exact (proj1 (Hl eq_refl) 0%nat)|].
    intros s0 s. split; [reflexivity|].
    destruct (proj2 (fetch_within_memory s eq_refl)) as (_ & _ & Hl').
    { change (pc s) with 254. lia. }
    apply (proj2 (Hl' eq_refl) s0).
    apply (reaches_next s0 s s); [reflexivity|reflexivity|apply reaches_here].
Defined.

Lemma alu_frame_witness :
  let s := set_reg init [200; 100; 0; 7; 0; 0; 0; 244] in
  let s' := set_reg init [44; 100; 0; 7; 0; 0; 0; 244] in
  ram s' = ram s /\ pc s' = pc s /\ is_running s' = is_running s
  /\ stdout s' = stdout s
  /\ length (reg s') = length (reg s)
  /\ reg s' !! 1%nat = reg s !! 1%nat
  /\ fl s' = fl s.
Proof.
  intros s s'.
  destruct (alu_frame "ADD" 0 1 s s' eq_refl)
    as (H1 & H2 & H3 & H4 & H5 & H6 & H7).
  do 5 (split; [assumption|]). split.
  - apply H6. cbn. discriminate.
  - apply H7. discriminate.
Defined.

Lemma alu_computes_witness :
  let s := set_reg init [200; 100; 0; 7; 0; 0; 0; 244] in
  (exists s', alu "ADD" 0 1 s = Ok s' /\ getitem (reg s') 0 = Ok 44)
  /\ (exists s', alu "NOT" 0 1 s = Ok s' /\ getitem (reg s') 0 = Ok 55)
  /\ (exists s', alu "SHL" 1 3 s = Ok s' /\ getitem (reg s') 1 = Ok 0)
  /\ (exists s', alu "SHR" 0 3 s = Ok s' /\ getitem (reg s') 0 = Ok 1).
Proof.
  intros s. split; [|split; [|split]].
  - destruct (alu_computes s 0 1 200 100 eq_refl eq_refl) as (H & _).
    exact H.
  - destruct (alu_computes s 0 1 200 100 eq_refl eq_refl)
      as (_ & _ & _ & _ & _ & H & _).
    exact H.
  - destruct (alu_computes s 1 3 100 7 eq_refl eq_refl)
      as (_ & _ & _ & _ & _ & _ & H & _).
    apply H; [lia|right; reflexivity].
  - destruct (alu_computes s 0 3 200 7 eq_refl eq_refl)
      as (_ & _ & _ & _ & _ & _ & _ & H).
    apply H. lia.
Defined.

Lemma alu_unsupported_witness :
  alu "SUB" 0 1 init = Raise UnsupportedALU.
Proof.
  apply alu_unsupported. cbn. intros H.
  repeat (destruct H as [H|H]; [discriminate H|]). exact H.
Defined.

Lemma shift_edges_witness :
  (alu "SHL" 0 1 shifty = Raise ValueError
   /\ alu "SHR" 0 1 shifty = Raise ValueError)
  /\ alu "SHL" 0 4 shifty = Raise MemoryError
  /\ (exists s', alu "SHL" 3 4 shifty = Ok s' /\ getitem (reg s') 3 = Ok 0)
  /\ (exists s', alu "SHL" 0 2 shifty = Ok s' /\ getitem (reg s') 0 = Ok 0)
  /\ (exists s', alu "SHR" 0 2 shifty = Ok s' /\ getitem (reg s') 0 = Ok 0)
  /\ (exists s', alu "SHR" 0 4 shifty = Ok s' /\ getitem (reg s') 0 = Ok 0).
Proof.
  split; [|split; [|split; [|split; [|split]]]].
  - destruct (shift_edges shifty 0 1 3 (-1) eq_refl eq_refl) as (H & _).
    apply H. lia.
  - destruct (shift_edges shifty 0 4 3 (2 ^ 64) eq_refl eq_refl)
      as (_ & H & _).
    apply (H ltac:(lia) ltac:(lia) OutOfMemory). reflexivity.
  - destruct (shift_edges shifty 3 4 0 (2 ^ 64) eq_refl eq_refl)
      as (_ & _ & H & _).
    apply H; [lia|reflexivity].
  - destruct (shift_edges shifty 0 2 3 9 eq_refl eq_refl)
      as (_ & _ & _ & H & _).
    apply H; [lia|reflexivity].
  - destruct (shift_edges shifty 0 2 3 9 eq_refl eq_refl)
      as (_ & _ & _ & _ & H).
    apply H; [lia|unfold is_byte; lia].
  - destruct (shift_edges shifty 0 4 3 (2 ^ 64) eq_refl eq_refl)
      as (_ & _ & _ & _ & H).
    apply H; [lia|unfold is_byte; lia].
Defined.

Lemma not_twice_witness :
  exists s1 s2,
    alu "NOT" 0 0 (set_reg init [200; 100; 0; 7; 0; 0; 0; 244]) = Ok s1
    /\ getitem (reg s1) 0 = Ok (255 - 200)
    /\ alu "NOT" 0 0 s1 = Ok s2
    /\ reg s2 = reg (set_reg init [200; 100; 0; 7; 0; 0; 0; 244]).
Proof.
  apply (not_twice (set_reg init [200; 100; 0; 7; 0; 0; 0; 244]) 0 0 0 200).
  - reflexivity.
  - unfold is_byte. lia.
Defined.

Lemma load_places_program_witness :
  exists s', load [LDI; 0; 8; PRN; 0; HLT] init = Ok s'
    /\ ram s' = [LDI; 0; 8; PRN; 0; HLT] ++ drop 6 (ram init)
    /\ reg s' = <[4%nat := 6]> (reg init)
    /\ pc s' = pc init /\ fl s' = fl init
    /\ is_running s' = is_running init /\ stdout s' = stdout init.
Proof.
  apply (load_places_program [LDI; 0; 8; PRN; 0; HLT] init).
  - reflexivity.
  - cbn. lia.
Defined.

Lemma load_too_long_witness :
  exists m, length m = length (ram init)
    /\ load (replicate 257 1) init
       = SysExit IO_ERROR
           (print PrintShuttingDown (print PrintCannotOpen (set_ram init m)))
    /\ reg (print PrintShuttingDown (print PrintCannotOpen (set_ram init m)))
       = reg init
    /\ stdout (print PrintShuttingDown (print PrintCannotOpen (set_ram init m)))
       = stdout init ++ [PrintCannotOpen; PrintShuttingDown].
Proof.
  apply (load_too_long (replicate 257 1) init).
  rewrite length_replicate. cbn. lia.
Defined.

Lemma run_ends_witness :
  ((DONE = DONE /\ is_running (halted hlt_demo 0 0) = false)
   \/ DONE = UNKNOWN_INSTRUCTION \/ DONE = STACK_OVERFLOW)
  /\ (let s0 := match load big_shift init with Ok s => s | _ => init end in
      run 10 s0 = Some (Raise MemoryError)
      /\ (MemoryError = IndexError \/ MemoryError = ValueError
          \/ MemoryError = MemoryError \/ MemoryError = OverflowError)).
Proof.
  split.
  - apply (run_ends 2 hlt_demo (SysExit DONE (halted hlt_demo 0 0))).
    reflexivity.
  - intros s0. split; [reflexivity|].
    apply (run_ends 10 (set_running (print PrintRunning s0) true)
             (Raise MemoryError)).
    reflexivity.
Defined.

Lemma run_body_keeps_sizes_witness :
  length (ram (after_body ldi_demo)) = length (ram ldi_demo)
  /\ length (reg (after_body ldi_demo)) = length (reg ldi_demo).
Proof.
  apply (run_body_keeps_sizes ldi_demo (after_body ldi_demo)). reflexivity.
Defined.

Lemma machine_stays_byte_valued_witness :
  (Forall is_byte (ram (set_running ldi_demo false))
   /\ Forall is_byte (reg (set_running ldi_demo false)))
  /\ (Forall is_byte (ram (after_body ldi_demo))
      /\ Forall is_byte (reg (after_body ldi_demo))).
Proof.
  destruct machine_stays_byte_valued as ((Hm0 & Hr0) & Hload & Hbody).
  split.
  - apply (Hload [LDI; 0; 8; PRN; 0; HLT] init).
    + repeat constructor; unfold is_byte, LDI, PRN, HLT; lia.
    + cbn. lia.
    + exact Hm0.
    + exact Hr0.
    + reflexivity.
  - apply (Hbody ldi_demo (after_body ldi_demo)).
    + exact (proj1 ldi_demo_bytes).
    + exact (proj2 ldi_demo_bytes).
    + reflexivity.
Defined.

Lemma ram_write_then_read_witness :
  ram_read 243 (set_ram init (<[243%nat := 42]> (ram init))) = Ok 42
  /\ ram_read 0 (set_ram init (<[243%nat := 42]> (ram init))) = ram_read 0 init
  /\ ram_read (-13) (set_ram init (<[243%nat := 42]> (ram init))) = Ok 42.
Proof.
  destruct (ram_write_then_read init
              (set_ram init (<[243%nat := 42]> (ram init))) 243 42 eq_refl)
    as (H1 & H2 & _).
  split; [exact H1|]. split; [|reflexivity].
  apply H2. cbn. discriminate.
Defined.

Lemma push_keeps_program_witness :
  ram (pushed roomy 244 243 42) !! 0%nat = ram roomy !! 0%nat
  /\ getitem (reg (pushed roomy 244 243 42)) PROGRAM_END = Ok 6
  /\ length (ram (pushed roomy 244 243 42)) = length (ram roomy).
Proof.
  destruct (push_keeps_program roomy (pushed roomy 244 243 42) 0 0 6)
    as (H1 & H2 & H3); [reflexivity|reflexivity|lia|reflexivity|].
  split; [|by split]. apply H1. lia.
Defined.

Lemma stack_capacity_witness :
  (exists s', exec_seq (replicate 2 (IPush 0 0)) roomy = Ok s'
              /\ getitem (reg s') SP = Ok (244 - 2))
  /\ (exists s', exec_seq (replicate 239 (IPush 0 0)) roomy
                 = SysExit STACK_OVERFLOW s').
Proof.
  destruct (stack_capacity roomy 0 0 244 6 0%nat) as [H1 H2];
    [reflexivity..|lia|lia|reflexivity|by eexists|].
  split; [apply (H1 2%nat); lia|exact H2].
Defined.

Lemma cmp_then_branch_witness :
  let s := set_reg init [5; 9; 77; 0; 0; 0; 0; 244] in
  let s1 := set_fl s LT in
  _jeq 2 0 s1 = Ok (set_pc s1 (pc s + 2))
  /\ _jne 2 0 s1 = Ok (set_pc s1 77).
Proof.
  intros s s1.
  apply (cmp_then_branch s s1 0 1 5 9 2 0 77); reflexivity.
Defined.

Lemma bad_register_operand_witness :
  _ldi 8 1 init = Raise IndexError
  /\ _prn 8 1 init = Raise IndexError
  /\ _jmp 8 1 init = Raise IndexError
  /\ _pop 8 1 init = Raise IndexError
  /\ alu "ADD" 8 1 init = Raise IndexError.
Proof.
  destruct (bad_register_operand init 8 1 eq_refl) as (H1 & H2 & H3 & H4 & H5).
  { right. lia. }
  do 4 (split; [assumption|]). apply H5. cbn. auto.
Defined.

Lemma ldi_then_prn_witness :
  let s1 := set_reg init [0; 0; 300; 0; 0; 0; 0; 244] in
  _prn 2 0 s1 = Ok (print (PrintValue 300) s1)
  /\ getitem (reg s1) 2 = Ok 300
  /\ reg s1 !! 7%nat = reg init !! 7%nat
  /\ ram s1 = ram init /\ pc s1 = pc init /\ fl s1 = fl init
  /\ stdout s1 = stdout init.
Proof.
  intros s1.
  destruct (ldi_then_prn init s1 2 300 0 eq_refl) as (H1 & H2 & H3 & H4).
  split; [exact H1|]. split; [exact H2|]. split; [|exact H4].
  apply H3. cbn. discriminate.
Defined.

Lemma instruction_frame_witness :
  (fl (after_body ldi_demo) = fl ldi_demo
   /\ is_running (after_body ldi_demo) = is_running ldi_demo
   /\ ram (after_body ldi_demo) = ram ldi_demo
   /\ stdout (after_body ldi_demo)
      = [PrintTrace 0 LDI 0 8 [0; 0; 0; 0; 6; 0; 0; 244]])
  /\ (exists v, getitem (reg (after_body ldi_demo)) 0 = Ok v
        /\ stdout (after_body (after_body ldi_demo))
           = [PrintTrace 0 LDI 0 8 [0; 0; 0; 0; 6; 0; 0; 244];
              PrintTrace 3 PRN 0 HLT [8; 0; 0; 0; 6; 0; 0; 244];
              PrintValue v]).
Proof.
  split.
  - destruct (instruction_frame ldi_demo (after_body ldi_demo) LDI 0 8
                eq_refl eq_refl) as (H1 & H2 & _ & H4 & H5 & _).
    split; [apply H1; discriminate|].
    split; [apply H2; discriminate|].
    split; [apply H4; discriminate|].
    apply H5; discriminate.
  - destruct (instruction_frame (after_body ldi_demo)
                (after_body (after_body ldi_demo)) PRN 0 HLT
                eq_refl eq_refl) as (_ & _ & _ & _ & _ & H6).
    exact (H6 eq_refl).
Defined.
